(** * SendToS3: the backup run of [myfile.py], embedded and verified

    The script walks the table [TECHNOLOGIES], globs every entry's
    directory, uploads the files modified within the entry's window to
    an S3 bucket, optionally removes them locally, and mails the
    captured log.  [script.py] is the same program after linting; line
    numbers below refer to [myfile.py].

    The embedding keeps the program's shape:
    - the configuration constants are a record [Config];
    - the collaborators (S3 client, filesystem, SMTP session, clock,
      interpreter version) are a record [World] of answers, one per
      call;
    - a run produces the chronological list of the calls it made and
      the log records it wrote, together with either a value or the
      exception that escaped. *)

From Stdlib Require Import String Ascii List ZArith NArith Arith Bool Lia.
From Stdlib Require Import DecimalString.
From Stdlib Require DecimalPos.
Import ListNotations.
Local Open Scope string_scope.
Local Open Scope list_scope.

(** ** Python values held by the configuration table *)

(** The values of [TECHNOLOGIES] are ordinary Python objects; the program
    checks their shape at run time.  The universe below has the shapes
    the script distinguishes: [None], integers, strings and lists. *)
#[warnings="-register-all"]
Inductive PyVal : Type :=
| PyNone
| PyInt (n : Z)
| PyStr (s : string)
| PyList (l : list PyVal).

(** Exceptions the run can meet.  All of them derive from [Exception]. *)
Inductive Exn : Type :=
| TypeError
| IndexError
| ValueError
| UnboundLocalError
| PermissionError
| FileNotFoundError
| OSError
| EndpointConnectionError
| ClientError (code : option Z)   (* [None]: a code [int()] rejects *)
| Gaierror
| TimeoutError
| SMTPAuthenticationError
| OtherException (what : string).

Inductive Res (A : Type) : Type :=
| Ok (a : A)
| Raise (e : Exn).
Arguments Ok {A} a.
Arguments Raise {A} e.

(** ** Strings and paths (posixpath) *)

Module PyStrings.

Definition slash : ascii := "/"%char.

Fixpoint contains_slash (s : string) : bool :=
  match s with
  | EmptyString => false
  | String c r => Ascii.eqb c slash || contains_slash r
  end.

(** [s.startswith('/')] *)
Definition startswith_slash (s : string) : bool :=
  match s with
  | String c _ => Ascii.eqb c slash
  | EmptyString => false
  end.

(** [s.endswith('/')] *)
Fixpoint endswith_slash (s : string) : bool :=
  match s with
  | EmptyString => false
  | String c EmptyString => Ascii.eqb c slash
  | String _ r => endswith_slash r
  end.

Definition is_empty (s : string) : bool :=
  match s with EmptyString => true | _ => false end.

(** [os.path.basename]: what follows the last slash. *)
Fixpoint basename (p : string) : string :=
  match p with
  | EmptyString => EmptyString
  | String c r =>
      if contains_slash r then basename r
      else if Ascii.eqb c slash then r
      else p
  end.

(** [p[:i]] with [i = p.rfind('/') + 1]: up to and with the last slash. *)
Fixpoint head_upto_slash (p : string) : string :=
  match p with
  | EmptyString => EmptyString
  | String c r =>
      if contains_slash r then String c (head_upto_slash r)
      else if Ascii.eqb c slash then String c EmptyString
      else EmptyString
  end.

Fixpoint all_slashes (s : string) : bool :=
  match s with
  | EmptyString => true
  | String c r => Ascii.eqb c slash && all_slashes r
  end.

(** [s.rstrip('/')] *)
Fixpoint rstrip_slash (s : string) : string :=
  match s with
  | EmptyString => EmptyString
  | String c r =>
      if all_slashes r && Ascii.eqb c slash then EmptyString
      else String c (rstrip_slash r)
  end.

(** [os.path.dirname] *)
Definition dirname (p : string) : string :=
  let head := head_upto_slash p in
  if negb (is_empty head) && negb (all_slashes head)
  then rstrip_slash head else head.

(** [os.path.isabs] *)
Definition isabs (p : string) : bool := startswith_slash p.

(** [path.replace('\ ', ' ')]: a backslash followed by a blank becomes
    the blank. *)
Fixpoint unescape_blanks (s : string) : string :=
  match s with
  | EmptyString => EmptyString
  | String c r =>
      match r with
      | String d r' =>
          if Ascii.eqb c "\"%char && Ascii.eqb d " "%char
          then String d (unescape_blanks r')
          else String c (unescape_blanks r)
      | EmptyString => s
      end
  end.

(** One round of the loop of [posixpath.join]. *)
Definition join_step (path b : string) : string :=
  if startswith_slash b then b
  else if is_empty path || endswith_slash path then path ++ b
  else path ++ "/" ++ b.

(** [os.path.join(a, *p)] *)
Definition join (a : string) (p : list string) : string :=
  fold_left join_step p a.

(** [str(n)] for an integer. *)
Definition str_int (n : Z) : string :=
  NilZero.string_of_int (Z.to_int n).

End PyStrings.
Import PyStrings.

(** ** Calendar dates ([datetime.date]) *)

Record date : Type := mkdate { year : Z; month : Z; day : Z }.

Module Calendar.

Definition is_leap (y : Z) : bool :=
  (y mod 4 =? 0)%Z && (negb (y mod 100 =? 0)%Z || (y mod 400 =? 0)%Z).

(** [_days_before_year]: days before January 1st of year [y]. *)
Definition days_before_year (y : Z) : Z :=
  let p := (y - 1)%Z in
  (p * 365 + p / 4 - p / 100 + p / 400)%Z.

Definition days_in_month (y m : Z) : Z :=
  if (m =? 2)%Z then (if is_leap y then 29 else 28)%Z
  else if ((m =? 4) || (m =? 6) || (m =? 9) || (m =? 11))%Z then 30%Z
  else 31%Z.

(** [_days_before_month]: days of year [y] before the first of month [m]. *)
Definition days_before_month (y m : Z) : Z :=
  fold_left (fun acc k => (acc + days_in_month y (Z.of_nat k))%Z)
            (seq 1 (Z.to_nat (m - 1))) 0%Z.

(** [date.toordinal] *)
Definition toordinal (d : date) : Z :=
  (days_before_year (year d) + days_before_month (year d) (month d) + day d)%Z.

(** [(a - b).days] *)
Definition days_between (a b : date) : Z := (toordinal a - toordinal b)%Z.

Fixpoint zeros (n : nat) : string :=
  match n with
  | O => EmptyString
  | S k => String "0" (zeros k)
  end.

(** ['%0<width>d' % n] for a number that is not negative. *)
Definition zfill (width : nat) (n : Z) : string :=
  (zeros (width - String.length (str_int n)) ++ str_int n)%string.

(** [str(d)], which is [d.isoformat()]: ['%04d-%02d-%02d']. *)
Definition isoformat (d : date) : string :=
  (zfill 4 (year d) ++ "-" ++ zfill 2 (month d) ++ "-" ++ zfill 2 (day d))%string.

End Calendar.
Import Calendar.

(** ** The report sink and the calls a run makes *)

Inductive Level : Type := INFO | WARNING | ERROR.

(** One constructor per [logger] call of the script, carrying the values
    its format string interpolates. *)
Inductive Msg : Type :=
| MsgEndpoint (bucket : string)                          (* l.90 *)
| MsgPrivateBucket (bucket : string)                     (* l.94 *)
| MsgBucketMissing (bucket : string)                     (* l.96 *)
| MsgNoTechnologies                                      (* l.99 *)
| MsgStarting (absolute_path : string) (name : PyVal)    (* l.105 *)
| MsgIncorrectValue (absolute_path : string)             (* l.108 *)
| MsgIncorrectPath (absolute_path : string) (name : PyVal)   (* l.111 *)
| MsgNoPattern (absolute_path : string) (name : PyVal)   (* l.114 *)
| MsgNoFiles (absolute_path : string) (name : PyVal)     (* l.117 *)
| MsgUploadError (file_name : string)                    (* l.139 *)
| MsgPermissionDenied (file_path : string)               (* l.147 *)
| MsgNoFilesInInterval (absolute_path : string) (name : PyVal)  (* l.152 *)
| MsgUploadedDeleted (sent : nat) (absolute_path : string) (name : PyVal) (* l.157 *)
| MsgUploadedKept (sent : nat) (absolute_path : string) (name : PyVal)    (* l.159 *)
| MsgUploadedUndeleted (sent : nat) (absolute_path : string) (name : PyVal)
                       (undeleted : nat)                 (* l.161 *)
| MsgPartialDelete (name : PyVal) (sent failed undeleted : nat)  (* l.164 *)
| MsgPartialKeep (name : PyVal) (sent failed : nat)      (* l.166 *)
| MsgTotal (n : nat)                                     (* l.168 *)
| MsgSuccessful (n : nat)                                (* l.169 *)
| MsgIssues (n : nat)                                    (* l.171, l.173 *)
| MsgNoInternet                                          (* l.204 *)
| MsgTimedOut                                            (* l.206 *)
| MsgBadCredentials                                      (* l.208 *)
| MsgException (e : Exn)                                 (* l.210 *)
| MsgVersion (major minor micro : Z)                     (* l.221 *)
| MsgZeroFiles                                           (* l.222 *)
| MsgEnvCreated                                          (* l.224 *)
| MsgSendingEmail (mail_to : string)                     (* l.227 *)
| MsgUnableToSend.                                       (* l.230 *)

Definition LogRecord : Type := (Level * Msg)%type.

(** What [print] writes: a line of text, or the whole captured buffer. *)
Inductive Console : Type :=
| ConsoleLine (text : string)
| ConsoleReport (body : list LogRecord).

Inductive Event : Type :=
| EvLog (lvl : Level) (m : Msg)
| EvHeadBucket (bucket : string)
| EvGlob (directory pattern : string)
| EvStat (file_path : string)
| EvUpload (file_path bucket key : string)
| EvRemove (file_path : string)
| EvSleep (seconds : N)
| EvConnect (server : string) (port : Z)       (* smtplib.SMTP_SSL *)
| EvLogin (user : string)                      (* smtp.login *)
| EvSmtp (site : string) (dated : date) (sender recipient : string)
         (body : list LogRecord)               (* smtp.send_message *)
| EvQuit                                       (* smtp.quit *)
| EvPrint (c : Console)
| EvCloseLogger.

(** [output_buffer.getvalue()]: the records written so far. *)
Fixpoint getvalue (t : list Event) : list LogRecord :=
  match t with
  | [] => []
  | EvLog l m :: r => (l, m) :: getvalue r
  | _ :: r => getvalue r
  end.

(** ** Runs: a trace and a result *)

Definition W (A : Type) : Type := (list Event * Res A)%type.

Definition ret {A} (a : A) : W A := ([], Ok a).
Definition raise {A} (e : Exn) : W A := ([], Raise e).
Definition emit (e : Event) : W unit := ([e], Ok tt).
Definition logger (l : Level) (m : Msg) : W unit := emit (EvLog l m).

Definition bind {A B} (m : W A) (f : A -> W B) : W B :=
  match m with
  | (t, Ok a) => let (t', r) := f a in (t ++ t', r)
  | (t, Raise e) => (t, Raise e)
  end.

(** The body of a [try]: its outcome becomes a value. *)
Definition attempt {A} (m : W A) : W (Res A) := (fst m, Ok (snd m)).

(** Turn a computed outcome back into control flow. *)
Definition lift {A} (r : Res A) : W A := ([], r).

Declare Scope run_scope.
Delimit Scope run_scope with run.
Notation "x <- m ;; k" := (bind m (fun x => k))
  (at level 61, m at next level, right associativity) : run_scope.
Notation "m ;;; k" := (bind m (fun _ => k))
  (at level 61, right associativity) : run_scope.
Local Open Scope run_scope.

Definition trace {A} (m : W A) : list Event := fst m.
Definition result {A} (m : W A) : Res A := snd m.

(** [send_files] only holds the logger, so it is a [W]; [send_email] and
    [backup] also hold [output_buffer] and may read what has been written
    so far.  A [Reading] step receives that history. *)
Definition Reading (A : Type) : Type := list Event -> W A.

Definition rbind {A B} (m : Reading A) (f : A -> Reading B) : Reading B :=
  fun h =>
    match m h with
    | (t, Ok a) => let (t', r) := f a (h ++ t) in (t ++ t', r)
    | (t, Raise e) => (t, Raise e)
    end.

Definition blind {A} (m : W A) : Reading A := fun _ => m.

(** The body of a [try] that reads the buffer. *)
Definition rattempt {A} (m : Reading A) : Reading (Res A) :=
  fun h => attempt (m h).
Definition read_buffer : Reading (list LogRecord) := fun h => ret (getvalue h).

Declare Scope reading_scope.
Delimit Scope reading_scope with reading.
Notation "x <~ m ;; k" := (rbind m (fun x => k))
  (at level 61, m at next level, right associativity) : reading_scope.
Notation "m ~;; k" := (rbind m (fun _ => k))
  (at level 61, right associativity) : reading_scope.

(** ** Configuration and collaborators *)

(** The module-level constants (l.47-61).  [TECHNOLOGIES] is a dict; its
    iteration order is insertion order, so it is kept as the list of its
    items. *)
Record Config : Type := mkConfig {
  SITE : string;
  HOSTNAME : option string;
  BUCKET : string;
  TECHNOLOGIES : list (string * PyVal);
  DAYS_TO_CHECK : Z;
  SLEEP_TIME : N;
  MAIL_TO : string;
  EMAIL_FROM : string;
  EMAIL_PASSWORD : option string;
  MAIL_SERVER : string;
  PORT_NO : Z
}.

(** What the outside answers to each call. *)
Record World : Type := mkWorld {
  version_info : Z * Z * Z;                 (* sys.version_info[0..2] *)
  gethostname : string;                     (* socket.gethostname() *)
  today : date;                             (* datetime.date.today() *)
  head_bucket : string -> Res unit;         (* s3_client.head_bucket *)
  glob : string -> string -> Res (list string);
                                            (* list(Path(dir).glob(pat)) *)
  mtime_date : string -> Res date;
      (* datetime.fromtimestamp(os.stat(f).st_mtime).date() *)
  upload_file : string -> string -> string -> Res unit;
                                            (* s3_client.upload_file *)
  remove : string -> Res unit;              (* os.remove *)
  set_header : string -> string -> Res unit;   (* msg[name] = value *)
  smtp_connect : string -> Z -> Res unit;      (* smtplib.SMTP_SSL(server, port) *)
  smtp_login : string -> option string -> Res unit;   (* smtp.login *)
  set_content : list LogRecord -> Res unit;    (* msg.set_content(text) *)
  smtp_send : string -> string -> list LogRecord -> Res unit;
                                            (* smtp.send_message(msg) *)
  smtp_quit : Res unit;                        (* smtp.quit() *)
  print_out : Console -> Res unit              (* print(text) *)
}.

(** The three per-technology counters (l.126-128). *)
Record Counters : Type := mkCounters {
  files_sent : nat;
  exception_files : nat;
  undeleteable_files : nat
}.

Definition no_files : Counters := mkCounters 0 0 0.

(** [v[0]] *)
Definition subscript0 (v : PyVal) : Res PyVal :=
  match v with
  | PyList (x :: _) => Ok x
  | PyList [] => Raise IndexError
  | PyStr (String c _) => Ok (PyStr (String c EmptyString))
  | PyStr EmptyString => Raise IndexError
  | PyNone | PyInt _ => Raise TypeError
  end.

(** [isinstance(v, list) and len(v) == 3] *)
Definition is_list3 (v : PyVal) : bool :=
  match v with
  | PyList [_; _; _] => true
  | _ => false
  end.

(** [v == 'delete'] *)
Definition is_delete (v : PyVal) : bool :=
  match v with
  | PyStr s => String.eqb s "delete"
  | _ => false
  end.

(** [age <= days], an [int] against whatever the entry holds. *)
Definition le_days (age : Z) (days : PyVal) : Res bool :=
  match days with
  | PyInt n => Ok (age <=? n)%Z
  | _ => Raise TypeError
  end.

(** [os.path.join(SITE, tech_name, HOSTNAME, str(year), str(month))]:
    every component has to be a [str]. *)
Definition destination_folder (site : string) (tech_name : PyVal)
    (host : string) (d : date) : Res string :=
  match tech_name with
  | PyStr t => Ok (join site [t; host; str_int (year d); str_int (month d)])
  | _ => Raise TypeError
  end.

(** [f'{destination_folder}/{file_name}'] *)
Definition destination_key (folder file_name : string) : string :=
  folder ++ "/" ++ file_name.

(** ** The program *)

Section Program.

Variable cfg : Config.
Variable w : World.

(** l.63-64: [if HOSTNAME is None: HOSTNAME = socket.gethostname()] *)
Definition hostname : string :=
  match HOSTNAME cfg with
  | Some h => h
  | None => gethostname w
  end.

(** Calls to the collaborators: the call is recorded, then it answers. *)
Definition call_head_bucket : W unit :=
  emit (EvHeadBucket (BUCKET cfg)) ;;; lift (head_bucket w (BUCKET cfg)).

Definition call_glob (directory pattern : string) : W (list string) :=
  emit (EvGlob directory pattern) ;;; lift (glob w directory pattern).

Definition call_mtime (file_path : string) : W date :=
  emit (EvStat file_path) ;;; lift (mtime_date w file_path).

Definition call_upload (file_path bucket key : string) : W unit :=
  emit (EvUpload file_path bucket key) ;;; lift (upload_file w file_path bucket key).

Definition call_remove (file_path : string) : W unit :=
  emit (EvRemove file_path) ;;; lift (remove w file_path).

Definition sent_one (c : Counters) : Counters :=
  mkCounters (files_sent c + 1) (exception_files c) (undeleteable_files c).
Definition failed_one (c : Counters) : Counters :=
  mkCounters (files_sent c) (exception_files c + 1) (undeleteable_files c).
Definition undeleted_one (c : Counters) : Counters :=
  mkCounters (files_sent c) (exception_files c) (undeleteable_files c + 1).

(** l.143-147: the local delete, guarded by [except PermissionError]. *)
Definition delete_local (c : Counters) (file_path : string) : W Counters :=
  r <- attempt (call_remove file_path) ;;
  match r with
  | Ok _ => ret c
  | Raise PermissionError =>
      logger ERROR (MsgPermissionDenied file_path) ;;;
      ret (undeleted_one c)
  | Raise e => raise e
  end.

(** l.134-136: the body of the [try] around the upload. *)
Definition try_upload (tech_name : PyVal) (last_modified_date : date)
    (file_path file_name : string) : W unit :=
  folder <- lift (destination_folder (SITE cfg) tech_name hostname
                                     last_modified_date) ;;
  call_upload file_path (BUCKET cfg) (destination_key folder file_name).

(** l.131-148: one round of [for file_path in files_list]. *)
Definition process_file (TODAY : date) (tech_name days delete_option : PyVal)
    (c : Counters) (file_path : string) : W Counters :=
  last_modified_date <- call_mtime file_path ;;
  in_window <- lift (le_days (days_between TODAY last_modified_date) days) ;;
  if in_window : bool then
    let file_name := basename file_path in
    r <- attempt (try_upload tech_name last_modified_date file_path file_name) ;;
    match r with
    | Raise _ =>
        logger ERROR (MsgUploadError file_name) ;;;
        ret (failed_one c)
    | Ok _ =>
        c' <- (if is_delete delete_option
               then delete_local (sent_one c) file_path
               else ret (sent_one c)) ;;
        emit (EvSleep (SLEEP_TIME cfg)) ;;;
        ret c'
    end
  else ret c.

(** l.130: the loop over [files_list]. *)
Fixpoint for_files (TODAY : date) (tech_name days delete_option : PyVal)
    (files_list : list string) (c : Counters) : W Counters :=
  match files_list with
  | [] => ret c
  | file_path :: rest =>
      c' <- process_file TODAY tech_name days delete_option c file_path ;;
      for_files TODAY tech_name days delete_option rest c'
  end.

(** l.150-166: classification of one technology; returns the updated
    [successfully_uploaded]. *)
Definition classify (successfully_uploaded : nat) (c : Counters)
    (delete_option : PyVal) (absolute_path : string) (tech_name : PyVal)
    : W nat :=
  if (exception_files c =? 0)%nat then
    if (files_sent c =? 0)%nat then
      logger WARNING (MsgNoFilesInInterval absolute_path tech_name) ;;;
      ret successfully_uploaded
    else if (undeleteable_files c =? 0)%nat then
      (if is_delete delete_option
       then logger INFO (MsgUploadedDeleted (files_sent c) absolute_path tech_name)
       else logger INFO (MsgUploadedKept (files_sent c) absolute_path tech_name)) ;;;
      ret (successfully_uploaded + 1)
    else
      logger WARNING (MsgUploadedUndeleted (files_sent c) absolute_path
                        tech_name (undeleteable_files c)) ;;;
      ret successfully_uploaded
  else
    (if is_delete delete_option
     then logger WARNING (MsgPartialDelete tech_name (files_sent c)
                            (exception_files c) (undeleteable_files c))
     else logger WARNING (MsgPartialKeep tech_name (files_sent c)
                            (exception_files c))) ;;;
    ret successfully_uploaded.

(** l.102-166: one round of [for path in TECHNOLOGIES]; a [continue]
    returns [successfully_uploaded] unchanged. *)
Definition process_technology (TODAY : date) (successfully_uploaded : nat)
    (path : string) (entry : PyVal) : W nat :=
  let file_pattern := basename path in
  let absolute_path := dirname (unescape_blanks path) in
  files_list <- call_glob absolute_path file_pattern ;;
  name0 <- lift (subscript0 entry) ;;
  logger INFO (MsgStarting absolute_path name0) ;;;
  match entry with
  | PyList [tech_name; days; delete_option] =>
      if negb (isabs path) then
        logger ERROR (MsgIncorrectPath absolute_path tech_name) ;;;
        ret successfully_uploaded
      else if is_empty file_pattern then
        logger ERROR (MsgNoPattern absolute_path tech_name) ;;;
        ret successfully_uploaded
      else
        match files_list with
        | [] =>
            logger WARNING (MsgNoFiles absolute_path tech_name) ;;;
            ret successfully_uploaded
        | _ =>
            let days := match days with
                        | PyNone => PyInt (DAYS_TO_CHECK cfg)
                        | _ => days
                        end in
            c <- for_files TODAY tech_name days delete_option files_list no_files ;;
            classify successfully_uploaded c delete_option absolute_path tech_name
        end
  | _ =>
      logger ERROR (MsgIncorrectValue absolute_path) ;;;
      ret successfully_uploaded
  end.

(** l.101: the loop over the table. *)
Fixpoint for_technologies (TODAY : date) (table : list (string * PyVal))
    (successfully_uploaded : nat) : W nat :=
  match table with
  | [] => ret successfully_uploaded
  | (path, entry) :: rest =>
      n <- process_technology TODAY successfully_uploaded path entry ;;
      for_technologies TODAY rest n
  end.

(** l.80-173 *)
Definition send_files (TODAY : date) : W unit :=
  let total_technologies := length (TECHNOLOGIES cfg) in
  r <- attempt call_head_bucket ;;
  match r with
  | Raise EndpointConnectionError =>
      logger ERROR (MsgEndpoint (BUCKET cfg))
  | Raise (ClientError code) =>
      match code with
      | None => raise ValueError
      | Some error_code =>
          if (error_code =? 403)%Z then
            logger ERROR (MsgPrivateBucket (BUCKET cfg))
          else if (error_code =? 404)%Z then
            logger ERROR (MsgBucketMissing (BUCKET cfg))
          else ret tt
      end
  | Raise e => raise e
  | Ok _ =>
      match TECHNOLOGIES cfg with
      | [] => logger ERROR MsgNoTechnologies
      | _ =>
          successfully_uploaded <- for_technologies TODAY (TECHNOLOGIES cfg) 0 ;;
          logger INFO (MsgTotal total_technologies) ;;;
          logger INFO (MsgSuccessful successfully_uploaded) ;;;
          if (successfully_uploaded <? total_technologies)%nat then
            logger WARNING (MsgIssues (total_technologies - successfully_uploaded))
          else
            logger INFO (MsgIssues (total_technologies - successfully_uploaded))
      end
  end.

(** l.192: the subject line. *)
Definition subject (TODAY : date) : string :=
  ("AWS backup for " ++ SITE cfg ++ " dated: " ++ isoformat TODAY)%string.

(** l.191-194: the message and its three headers, set before the [try];
    the email package may turn a value down. *)
Definition build_headers (TODAY : date) : W unit :=
  lift (set_header w "Subject" (subject TODAY)) ;;;
  lift (set_header w "From" (EMAIL_FROM cfg)) ;;;
  lift (set_header w "To" (MAIL_TO cfg)).

(** l.197-201: the body of the [try].  The buffer is read only after
    the connection and the login have returned. *)
Definition dispatch (TODAY : date) : Reading unit :=
  (blind (emit (EvConnect (MAIL_SERVER cfg) (PORT_NO cfg)) ;;;
          lift (smtp_connect w (MAIL_SERVER cfg) (PORT_NO cfg))) ~;;
   blind (emit (EvLogin (EMAIL_FROM cfg)) ;;;
          lift (smtp_login w (EMAIL_FROM cfg) (EMAIL_PASSWORD cfg))) ~;;
   body <~ read_buffer ;;
   blind (lift (set_content w body)) ~;;
   blind (emit (EvSmtp (SITE cfg) TODAY (EMAIL_FROM cfg) (MAIL_TO cfg) body) ;;;
          lift (smtp_send w (EMAIL_FROM cfg) (MAIL_TO cfg) body)) ~;;
   blind (emit EvQuit ;;; lift (smtp_quit w)))%reading.

(** l.186-212 *)
Definition send_email (TODAY : date) : Reading bool :=
  (blind (build_headers TODAY) ~;;
   r <~ rattempt (dispatch TODAY) ;;
   blind match r with
         | Ok _ => ret true
         | Raise Gaierror => logger ERROR MsgNoInternet ;;; ret false
         | Raise TimeoutError => logger ERROR MsgTimedOut ;;; ret false
         | Raise SMTPAuthenticationError =>
             logger ERROR MsgBadCredentials ;;; ret false
         | Raise e => logger ERROR (MsgException e) ;;; ret false
         end)%reading.

(** [print(text)]: the console may turn it down. *)
Definition call_print (c : Console) : W unit :=
  emit (EvPrint c) ;;; lift (print_out w c).

(** l.175-184 *)
Definition close_logger : W unit := emit EvCloseLogger.

Definition confirmation : string :=
  "Executed the backup script and sent an email to " ++ MAIL_TO cfg.

(** l.214-234.  [TODAY] is bound in the [else] branch only. *)
Definition backup_steps : Reading unit :=
  (let '(major, minor, micro) := version_info w in
   TODAY <~ blind
     (if negb (major =? 3)%Z || (minor <? 6)%Z then
        logger ERROR (MsgVersion major minor micro) ;;;
        logger ERROR MsgZeroFiles ;;;
        ret None
      else
        logger INFO MsgEnvCreated ;;;
        send_files (today w) ;;;
        ret (Some (today w))) ;;
   blind (logger INFO (MsgSendingEmail (MAIL_TO cfg))) ~;;
   is_success <~ match TODAY with
                 | Some d => send_email d
                 | None => blind (raise UnboundLocalError)
                 end ;;
   (if negb is_success then
      blind (logger ERROR MsgUnableToSend) ~;;
      report <~ read_buffer ;;
      blind (call_print (ConsoleReport report))
    else
      blind (call_print (ConsoleLine confirmation))) ~;;
   blind close_logger)%reading.

(** [output_buffer, logger = init()]: the buffer starts empty. *)
Definition backup : W unit := backup_steps [].

End Program.

(** ** What a run of the per-file loop is measured against *)

Definition is_sleep (e : Event) : bool :=
  match e with EvSleep _ => true | _ => false end.
Definition is_upload (e : Event) : bool :=
  match e with EvUpload _ _ _ => true | _ => false end.

Definition count_sleeps (t : list Event) : nat := length (filter is_sleep t).
Definition count_uploads (t : list Event) : nat := length (filter is_upload t).

Definition b2n (b : bool) : nat := if b then 1 else 0.

Section Transfer.

Variable cfg : Config.
Variable w : World.
Variable TODAY : date.
Variables tech_name days delete_option : PyVal.

(** What the collaborators hold in store for a file: whether the loop
    gets as far as the [try] (the file is stat-able and in the window),
    and how the [try] and the delete end. *)
Definition in_window (file_path : string) : option date :=
  match mtime_date w file_path with
  | Ok d =>
      match le_days (days_between TODAY d) days with
      | Ok true => Some d
      | _ => None
      end
  | Raise _ => None
  end.

Definition upload_outcome (file_path : string) : option (Res unit) :=
  match in_window file_path with
  | Some d => Some (result (try_upload cfg w tech_name d file_path
                                       (basename file_path)))
  | None => None
  end.

Definition upload_raised (file_path : string) : bool :=
  match upload_outcome file_path with
  | Some (Raise _) => true
  | _ => false
  end.

Definition upload_returned (file_path : string) : bool :=
  match upload_outcome file_path with
  | Some (Ok _) => true
  | _ => false
  end.

Definition delete_denied (file_path : string) : bool :=
  upload_returned file_path && is_delete delete_option &&
  match remove w file_path with
  | Raise PermissionError => true
  | _ => false
  end.

Definition tally (p : string -> bool) (files : list string) : nat :=
  length (filter p files).

(** Every [os.remove] in a trace comes right after an
    [s3_client.upload_file] of the same path that returned. *)
Fixpoint deletes_follow_uploads (prev : option Event) (t : list Event) : Prop :=
  match t with
  | [] => True
  | e :: r =>
      match e with
      | EvRemove p =>
          is_delete delete_option = true /\
          exists key, prev = Some (EvUpload p (BUCKET cfg) key) /\
                      upload_file w p (BUCKET cfg) key = Ok tt
      | _ => True
      end /\ deletes_follow_uploads (Some e) r
  end.

(** An upload call of a technology's loop is for a file of the list, in
    the window by its own modification date, into [BUCKET], under the
    folder computed from that date. *)
Definition upload_explained (files : list string) (p bucket key : string) : Prop :=
  In p files /\ bucket = BUCKET cfg /\
  exists d folder,
    in_window p = Some d /\
    destination_folder (SITE cfg) tech_name (hostname cfg w) d = Ok folder /\
    key = destination_key folder (basename p).

End Transfer.

(** ** The documented layout and the effective window *)

(** The key as the module docstring lays it out,
    [SITE/TECHNOLOGY/HOSTNAME/YEAR/MONTH], followed by the file name:
    the six parts written one after the other with a slash between. *)
Definition documented_key (site tech host : string) (d : date)
    (file_name : string) : string :=
  site ++ "/" ++ tech ++ "/" ++ host ++ "/" ++ str_int (year d) ++ "/"
       ++ str_int (month d) ++ "/" ++ file_name.

(** A path component [os.path.join] passes through untouched: not empty,
    no slash at either end. *)
Definition plain_component (s : string) : bool :=
  negb (is_empty s) && negb (startswith_slash s) && negb (endswith_slash s).

(** The first argument of [os.path.join] may start with a slash. *)
Definition plain_root (s : string) : bool :=
  negb (is_empty s) && negb (endswith_slash s).

(** The window an entry's second field stands for, when it is [None] or
    an integer. *)
Definition effective_window (cfg : Config) (days : PyVal) : option Z :=
  match days with
  | PyNone => Some (DAYS_TO_CHECK cfg)
  | PyInt n => Some n
  | _ => None
  end.

(** A numeral written with a zero in front. *)
Definition leading_zero (s : string) : bool :=
  match s with
  | String c _ => Ascii.eqb c "0"%char
  | EmptyString => false
  end.

(** [print] calls of a run, in order. *)
Fixpoint console (t : list Event) : list Console :=
  match t with
  | [] => []
  | EvPrint c :: r => c :: console r
  | _ :: r => console r
  end.

(** Calls that belong to the processing of a technology. *)
Definition is_processing (e : Event) : bool :=
  match e with
  | EvGlob _ _ | EvStat _ | EvUpload _ _ _ | EvRemove _ | EvSleep _ => true
  | _ => false
  end.

(** ** Scenes: concrete configurations and collaborators *)

Module Scene.

Definition java_delete : PyVal := PyList [PyStr "java"; PyInt 90; PyStr "delete"].

Definition config (table : list (string * PyVal)) : Config :=
  mkConfig "s" (Some "h") "forsendingtoaws" table 5 5
           "ops@example.org" "backup@example.org" None "smtp.example.org" 465.

Definition one_table : list (string * PyVal) := [("/data/*.class", java_delete)].

Definition modified : date := mkdate 2023 11 2.
Definition run_day : date := mkdate 2023 11 10.

Definition world (version : Z * Z * Z) (bucket : Res unit)
    (files : list string) (upload : string -> Res unit)
    (rm : string -> Res unit) (smtp : Res unit) : World :=
  mkWorld version "h" run_day
          (fun _ => bucket)
          (fun _ _ => Ok files)
          (fun _ => Ok modified)
          (fun p _ _ => upload p)
          rm
          (fun _ _ => Ok tt)
          (fun _ _ => Ok tt)
          (fun _ _ => smtp)
          (fun _ => Ok tt)
          (fun _ _ _ => Ok tt)
          (Ok tt)
          (fun _ => Ok tt).

Definition three_files : list string :=
  ["/data/A.class"; "/data/B.class"; "/data/C.class"].

Definition fails_on (name : string) (e : Exn) (p : string) : Res unit :=
  if String.eqb p name then Raise e else Ok tt.

Definition always (r : Res unit) (p : string) : Res unit := r.

(** Everything answers. *)
Definition calm : World :=
  world (3, 8, 0)%Z (Ok tt) three_files (always (Ok tt)) (always (Ok tt)) (Ok tt).

(** The upload of [B.class] raises. *)
Definition b_fails : World :=
  world (3, 8, 0)%Z (Ok tt) three_files
        (fails_on "/data/B.class" (OtherException "S3UploadFailedError"))
        (always (Ok tt)) (Ok tt).

(** One file, whose upload raises. *)
Definition lone_failure : World :=
  world (3, 8, 0)%Z (Ok tt) ["/data/A.class"]
        (always (Raise (OtherException "S3UploadFailedError")))
        (always (Ok tt)) (Ok tt).

(** [A.class] may not be removed. *)
Definition a_protected : World :=
  world (3, 8, 0)%Z (Ok tt) three_files (always (Ok tt))
        (fails_on "/data/A.class" PermissionError) (Ok tt).

(** The directory sits on a read-only file system: [os.remove] raises an
    [OSError] that is not a [PermissionError]. *)
Definition read_only : World :=
  world (3, 8, 0)%Z (Ok tt) three_files (always (Ok tt))
        (always (Raise OSError)) (Ok tt).

(** An interpreter the version check turns down. *)
Definition old_python : World :=
  world (3, 5, 2)%Z (Ok tt) three_files (always (Ok tt)) (always (Ok tt)) (Ok tt).

(** The bucket answers 403. *)
Definition forbidden : World :=
  world (3, 8, 0)%Z (Raise (ClientError (Some 403%Z))) three_files
        (always (Ok tt)) (always (Ok tt)) (Ok tt).


(** The site name holds a line break: the email package turns the
    subject down with [ValueError]. *)
Definition broken_subject : World :=
  mkWorld (3, 8, 0)%Z "h" run_day
          (fun _ => Ok tt)
          (fun _ _ => Ok three_files)
          (fun _ => Ok modified)
          (fun _ _ _ => Ok tt)
          (fun _ => Ok tt)
          (fun name _ => if String.eqb name "Subject" then Raise ValueError
                         else Ok tt)
          (fun _ _ => Ok tt)
          (fun _ _ => Ok tt)
          (fun _ => Ok tt)
          (fun _ _ _ => Ok tt)
          (Ok tt)
          (fun _ => Ok tt).

End Scene.

(** ** Further readings of a trace *)

Definition is_remove (e : Event) : bool :=
  match e with EvRemove _ => true | _ => false end.

Definition count_removes (t : list Event) : nat := length (filter is_remove t).

(** The paths handed to [os.stat], in order. *)
Fixpoint stats (t : list Event) : list string :=
  match t with
  | [] => []
  | EvStat p :: r => p :: stats r
  | _ :: r => stats r
  end.

(** The (directory, pattern) pairs handed to [glob], in order. *)
Fixpoint globs (t : list Event) : list (string * string) :=
  match t with
  | [] => []
  | EvGlob d p :: r => (d, p) :: globs r
  | _ :: r => globs r
  end.

(** The SMTP sessions opened, in order. *)
Fixpoint mails (t : list Event) : list Event :=
  match t with
  | [] => []
  | EvSmtp s d f r b :: rest => EvSmtp s d f r b :: mails rest
  | _ :: rest => mails rest
  end.

(** Calls that reach outside the process, other than the bucket check. *)
Definition is_outward (e : Event) : bool :=
  match e with
  | EvLog _ _ | EvHeadBucket _ => false
  | _ => true
  end.

(** The glob a table key stands for: [Path(absolute_path).glob(file_pattern)]. *)
Definition glob_of (path : string) : string * string :=
  (dirname (unescape_blanks path), basename path).

Section TransferReadings.

Variable cfg : Config.
Variable w : World.
Variable TODAY : date.
Variables tech_name days delete_option : PyVal.

Definition attempted (file_path : string) : bool :=
  match in_window w TODAY days file_path with
  | Some _ => true
  | None => false
  end.

(** The upload returned, the policy is delete and [os.remove] returned. *)
Definition removed (file_path : string) : bool :=
  upload_returned cfg w TODAY tech_name days file_path &&
  is_delete delete_option &&
  match remove w file_path with
  | Ok _ => true
  | Raise _ => false
  end.

(** What lets an exception out of one round of the loop over the files:
    a failing [os.stat], a window that is not a number, or an
    [os.remove] that raises something other than [PermissionError]. *)
Definition escapes (file_path : string) (e : Exn) : Prop :=
  mtime_date w file_path = Raise e \/
  (e = TypeError /\
   exists d, mtime_date w file_path = Ok d /\
             le_days (days_between TODAY d) days = Raise TypeError) \/
  (upload_returned cfg w TODAY tech_name days file_path = true /\
   is_delete delete_option = true /\
   remove w file_path = Raise e /\ e <> PermissionError).

End TransferReadings.

(** The steps that belong to the backup phase: log records and calls to
    the bucket and the filesystem.  Mail, console and the closing of
    the logger are the report phase. *)
Definition is_backup_step (e : Event) : bool :=
  match e with
  | EvConnect _ _ | EvLogin _ | EvSmtp _ _ _ _ _ | EvQuit
  | EvPrint _ | EvCloseLogger => false
  | _ => true
  end.

Definition is_close (e : Event) : bool :=
  match e with EvCloseLogger => true | _ => false end.

(** The log records of a trace are all errors. *)
Definition is_error_record (r : LogRecord) : bool :=
  match fst r with ERROR => true | _ => false end.

(** The interpreter passes the check of l.220: major is 3 and minor is
    at least 6. *)
Definition version_ok (w : World) : bool :=
  let '(major, minor, _) := version_info w in
  (major =? 3)%Z && (6 <=? minor)%Z.

(** The record the loop over the files owes the report for a file: one
    error naming the file when its upload raised, one error telling to
    delete it by hand when its removal was denied, nothing otherwise. *)
Definition owed_records (cfg : Config) (w : World) (TODAY : date)
    (tech_name days delete_option : PyVal) (file_path : string)
    : list LogRecord :=
  if upload_raised cfg w TODAY tech_name days file_path
  then [(ERROR, MsgUploadError (basename file_path))]
  else if delete_denied cfg w TODAY tech_name days delete_option file_path
       then [(ERROR, MsgPermissionDenied file_path)]
       else [].

(** Every [time.sleep] in a trace lasts [SLEEP_TIME] and closes the
    round of a file whose upload returned: it comes right after the
    delete step when the policy is delete (the [os.remove] that
    returned, or the error record of the one that was denied), and right
    after the upload otherwise. *)
Fixpoint pauses_close_rounds (cfg : Config) (w : World) (delete_option : PyVal)
    (prev : option Event) (t : list Event) : Prop :=
  match t with
  | [] => True
  | e :: r =>
      match e with
      | EvSleep seconds =>
          seconds = SLEEP_TIME cfg /\
          match prev with
          | Some (EvUpload p bucket key) =>
              is_delete delete_option = false /\
              upload_file w p bucket key = Ok tt
          | Some (EvRemove p) =>
              is_delete delete_option = true /\ remove w p = Ok tt
          | Some (EvLog ERROR (MsgPermissionDenied p)) =>
              is_delete delete_option = true /\
              remove w p = Raise PermissionError
          | _ => False
          end
      | _ => True
      end /\ pauses_close_rounds cfg w delete_option (Some e) r
  end.

(** What has been written when [backup] reaches the mail step, the
    version check having passed and [send_files] having returned. *)
Definition history_at_mail (cfg : Config) (w : World) : list Event :=
  EvLog INFO MsgEnvCreated
    :: trace (send_files cfg w (today w))
    ++ [EvLog INFO (MsgSendingEmail (MAIL_TO cfg))].

(** * Verification *)

(** ** Laws of runs *)

Lemma trace_bind A B (m : W A) (f : A -> W B) :
  trace (bind m f) =
  match result m with
  | Ok a => trace m ++ trace (f a)
  | Raise _ => trace m
  end.
Proof.
  destruct m as [t [a | e]]; simpl; [destruct (f a) | ]; reflexivity.
Qed.

Lemma result_bind A B (m : W A) (f : A -> W B) :
  result (bind m f) =
  match result m with
  | Ok a => result (f a)
  | Raise e => Raise e
  end.
Proof.
  destruct m as [t [a | e]]; simpl; [destruct (f a) | ]; reflexivity.
Qed.

Lemma getvalue_app (s t : list Event) :
  getvalue (s ++ t) = getvalue s ++ getvalue t.
Proof.
  induction s as [| [] s IH]; simpl; rewrite ?IH; reflexivity.
Qed.

Lemma bind_lift_ok A B (a : A) (f : A -> W B) : bind (lift (Ok a)) f = f a.
Proof. unfold bind, lift; destruct (f a); reflexivity. Qed.

Lemma trace_emit_then A (e : Event) (k : W A) :
  trace (bind (emit e) (fun _ => k)) = e :: trace k.
Proof. unfold bind, emit, trace; destruct k; reflexivity. Qed.

(** ** Classification of a technology (l.150-166) *)

(** C4. [classify] adds one to [successfully_uploaded] exactly when no
    upload failed, no delete failed and at least one file was sent;
    otherwise the count is returned as it was.  With a failed upload the
    count is unchanged whatever [files_sent] is, and the single record
    written is a warning. *)
Theorem classify_counts_full_success :
  forall (successfully_uploaded : nat) (c : Counters) (delete_option : PyVal)
         (absolute_path : string) (tech_name : PyVal),
    let run := classify successfully_uploaded c delete_option absolute_path
                        tech_name in
    (result run = Ok (successfully_uploaded + 1) <->
       exception_files c = 0 /\ undeleteable_files c = 0 /\ 0 < files_sent c)
    /\ (result run = Ok (successfully_uploaded + 1) \/
        result run = Ok successfully_uploaded)
    /\ (0 < exception_files c ->
        result run = Ok successfully_uploaded /\
        exists m, trace run = [EvLog WARNING m]).
Proof.
  intros su c del ap tn run; subst run; unfold classify.
  destruct (exception_files c) as [| ef] eqn:Hef;
    destruct (files_sent c) as [| fs] eqn:Hfs;
    destruct (undeleteable_files c) as [| uf] eqn:Huf;
    destruct (is_delete del); simpl; repeat split; intros;
    repeat match goal with
           | H : _ /\ _ |- _ => destruct H
           | H : Ok _ = Ok _ |- _ => injection H as H
           end;
    try lia; try discriminate; try reflexivity; eauto.
Qed.

(** ** Worked values of the path and calendar helpers *)

Example basename_ex : basename "/var/www/httpd/*.gz" = "*.gz".
Proof. reflexivity. Qed.

Example dirname_ex : dirname "/var/www/httpd/*.gz" = "/var/www/httpd".
Proof. reflexivity. Qed.

Example dirname_root : dirname "/x" = "/".
Proof. reflexivity. Qed.

Example unescape_ex :
  unescape_blanks "/Users/u/sem\ 3/oop/*.class" = "/Users/u/sem 3/oop/*.class".
Proof. reflexivity. Qed.

Example join_ex : join "s" ["java"; "h"; "2023"; "11"] = "s/java/h/2023/11".
Proof. reflexivity. Qed.

Example join_abs : join "s" ["/java"; "h"] = "/java/h".
Proof. reflexivity. Qed.

Example str_int_ex : str_int 2023 = "2023" /\ str_int 3 = "3" /\ str_int 0 = "0".
Proof. repeat split; reflexivity. Qed.

Example toordinal_ex : toordinal (mkdate 2023 11 2) = 738826%Z.
Proof. reflexivity. Qed.

Example isoformat_ex : isoformat (mkdate 2023 3 5) = "2023-03-05".
Proof. reflexivity. Qed.

Example subject_ex :
  subject (Scene.config Scene.one_table) (mkdate 2023 11 10)
  = "AWS backup for s dated: 2023-11-10".
Proof. reflexivity. Qed.

Example days_between_ex :
  days_between (mkdate 2024 3 1) (mkdate 2024 2 28) = 2%Z.
Proof. reflexivity. Qed.

(** ** The per-file loop (l.130-148) *)

Lemma count_sleeps_app s t : count_sleeps (s ++ t) = count_sleeps s + count_sleeps t.
Proof. unfold count_sleeps; now rewrite filter_app, length_app. Qed.

Section TransferFacts.

Variable cfg : Config.
Variable w : World.
Variable TODAY : date.
Variables tech_name days delete_option : PyVal.

Local Abbreviation follows := (deletes_follow_uploads cfg w delete_option).
Local Abbreviation raised := (upload_raised cfg w TODAY tech_name days).
Local Abbreviation returned := (upload_returned cfg w TODAY tech_name days).
Local Abbreviation denied :=
  (delete_denied cfg w TODAY tech_name days delete_option).

Lemma deletes_follow_uploads_app prev s t :
  follows prev s ->
  (forall prev', follows prev' t) ->
  follows prev (s ++ t).
Proof.
  revert prev; induction s as [| e s IH]; intros prev Hs Ht; simpl.
  - apply Ht.
  - destruct Hs as [He Hs]; split; [exact He | now apply IH].
Qed.

Ltac open_file :=
  unfold delete_denied, upload_raised, upload_returned in *;
  unfold upload_outcome in *; unfold in_window in *;
  unfold process_file, call_mtime, try_upload, call_upload, delete_local,
    call_remove, destination_folder, logger, emit, lift, attempt, ret,
    raise, bind, trace, result, count_sleeps, b2n in *.

Lemma process_file_deletes c file_path prev :
  follows prev
    (trace (process_file cfg w TODAY tech_name days delete_option c file_path)).
Proof.
  open_file; simpl.
  destruct (mtime_date w file_path) as [d | e]; simpl; [| tauto].
  destruct (le_days (days_between TODAY d) days) as [[|] | e]; simpl; try tauto.
  destruct tech_name as [| n | t | l]; simpl; try tauto.
  destruct (upload_file w file_path (BUCKET cfg) _) as [[] | e] eqn:Hup;
    simpl; try tauto.
  destruct (is_delete delete_option) eqn:Hdel; simpl; [| tauto].
  destruct (remove w file_path) as [[] | []]; simpl;
    repeat split; eauto.
Qed.

(** The counters after one file, read off the collaborators' answers. *)
Lemma process_file_counters c file_path c' :
  result (process_file cfg w TODAY tech_name days delete_option c file_path)
    = Ok c' ->
  exception_files c' = exception_files c + b2n (raised file_path) /\
  undeleteable_files c' = undeleteable_files c + b2n (denied file_path) /\
  files_sent c' = files_sent c + b2n (returned file_path) /\
  count_sleeps
    (trace (process_file cfg w TODAY tech_name days delete_option c file_path))
    = b2n (returned file_path).
Proof.
  open_file; simpl.
  destruct (mtime_date w file_path) as [d | e]; simpl; [| discriminate].
  destruct (le_days (days_between TODAY d) days) as [[|] | e]; simpl;
    try discriminate;
    [| intros H; injection H as <-; simpl; lia].
  destruct tech_name as [| n | t | l]; simpl;
    try (intros H; injection H as <-; simpl; lia).
  destruct (upload_file w file_path (BUCKET cfg) _) as [[] | e]; simpl;
    [| intros H; injection H as <-; simpl; lia].
  destruct (is_delete delete_option); simpl;
    [| intros H; injection H as <-; simpl; lia].
  destruct (remove w file_path) as [[] | []]; simpl;
    try discriminate; intros H; injection H as <-; simpl; lia.
Qed.

End TransferFacts.

Lemma tally_cons (p : string -> bool) (f : string) (files : list string) :
  tally p (f :: files) = b2n (p f) + tally p files.
Proof. unfold tally; simpl; destruct (p f); reflexivity. Qed.

Lemma for_files_cons cfg w TODAY tech_name days delete_option f files c :
  for_files cfg w TODAY tech_name days delete_option (f :: files) c =
  bind (process_file cfg w TODAY tech_name days delete_option c f)
       (fun c' => for_files cfg w TODAY tech_name days delete_option files c').
Proof. reflexivity. Qed.

Lemma for_files_deletes cfg w TODAY tech_name days delete_option files :
  forall c prev,
    deletes_follow_uploads cfg w delete_option prev
      (trace (for_files cfg w TODAY tech_name days delete_option files c)).
Proof.
  induction files as [| f files IH]; intros c prev.
  - exact I.
  - rewrite for_files_cons, trace_bind.
    destruct (result (process_file cfg w TODAY tech_name days delete_option c f))
      as [c1 | e].
    + apply deletes_follow_uploads_app.
      * apply process_file_deletes.
      * intros prev'; apply IH.
    + apply process_file_deletes.
Qed.

Lemma for_files_counters cfg w TODAY tech_name days delete_option files :
  forall c c',
    result (for_files cfg w TODAY tech_name days delete_option files c) = Ok c' ->
    exception_files c' =
      exception_files c
      + tally (upload_raised cfg w TODAY tech_name days) files /\
    undeleteable_files c' =
      undeleteable_files c
      + tally (delete_denied cfg w TODAY tech_name days delete_option) files /\
    files_sent c' =
      files_sent c + tally (upload_returned cfg w TODAY tech_name days) files /\
    count_sleeps (trace (for_files cfg w TODAY tech_name days delete_option files c))
      = tally (upload_returned cfg w TODAY tech_name days) files.
Proof.
  induction files as [| f files IH]; intros c c'.
  - simpl; intros H; injection H as <-.
    unfold tally, count_sleeps, trace, ret; simpl; lia.
  - rewrite for_files_cons, trace_bind, result_bind, !tally_cons.
    destruct (result (process_file cfg w TODAY tech_name days delete_option c f))
      as [c1 | e] eqn:Hf; [| discriminate].
    intros Hrest.
    destruct (process_file_counters _ _ _ _ _ _ _ _ _ Hf) as (He & Hu & Hs & Hz).
    destruct (IH _ _ Hrest) as (He' & Hu' & Hs' & Hz').
    rewrite count_sleeps_app; lia.
Qed.

(** C1. In the loop over a technology's files, an [os.remove] is only
    ever issued right after an upload of the same file that returned,
    and only under the delete policy.  When the loop completes,
    [exception_files] has grown by the number of files whose upload
    attempt raised, and [undeleteable_files] by the number of files whose
    upload returned, whose policy is delete and whose removal was denied:
    a denied delete never adds to [exception_files]. *)
Theorem delete_only_after_upload :
  forall cfg w TODAY tech_name days delete_option files c,
    let run := for_files cfg w TODAY tech_name days delete_option files c in
    deletes_follow_uploads cfg w delete_option None (trace run) /\
    forall c',
      result run = Ok c' ->
      exception_files c' =
        exception_files c
        + tally (upload_raised cfg w TODAY tech_name days) files /\
      undeleteable_files c' =
        undeleteable_files c
        + tally (delete_denied cfg w TODAY tech_name days delete_option) files.
Proof.
  intros cfg w TODAY tech_name days delete_option files c run; split.
  - apply for_files_deletes.
  - intros c' H.
    destruct (for_files_counters _ _ _ _ _ _ _ _ _ H) as (He & Hu & _).
    split; assumption.
Qed.

Lemma delete_only_after_upload_witness :
  let cfg := Scene.config Scene.one_table in
  let w := Scene.a_protected in
  let run := for_files cfg w Scene.run_day (PyStr "java") (PyInt 90)
                       (PyStr "delete") Scene.three_files no_files in
  result run = Ok (mkCounters 3 0 1) /\
  0 = 0 + tally (upload_raised cfg w Scene.run_day (PyStr "java") (PyInt 90))
                Scene.three_files /\
  1 = 0 + tally (delete_denied cfg w Scene.run_day (PyStr "java") (PyInt 90)
                               (PyStr "delete"))
                Scene.three_files.
Proof.
  split.
  - reflexivity.
  - exact (proj2 (delete_only_after_upload
                    (Scene.config Scene.one_table) Scene.a_protected
                    Scene.run_day (PyStr "java") (PyInt 90) (PyStr "delete")
                    Scene.three_files no_files)
                 (mkCounters 3 0 1) eq_refl).
Defined.

(** ** The pause between uploads (l.148) *)

(** C3, as claimed, fails: with one file in the window whose upload
    raises, the run makes one transfer attempt and never sleeps. *)
Lemma no_pause_after_failed_upload :
  let run := send_files (Scene.config Scene.one_table) Scene.lone_failure
                        Scene.run_day in
  result run = Ok tt /\
  count_uploads (trace run) = 1 /\
  count_sleeps (trace run) = 0 /\
  count_sleeps (trace run) <> count_uploads (trace run).
Proof.
  repeat split; try reflexivity.
  vm_compute; discriminate.
Qed.

Lemma pauses_close_rounds_app cfg w dl prev s t :
  pauses_close_rounds cfg w dl prev s ->
  (forall prev', pauses_close_rounds cfg w dl prev' t) ->
  pauses_close_rounds cfg w dl prev (s ++ t).
Proof.
  revert prev; induction s as [| e s IH]; intros prev Hs Ht; simpl.
  - apply Ht.
  - destruct Hs as [He Hs]; split; [exact He | now apply IH].
Qed.

Lemma process_file_pauses cfg w TODAY tn dy dl c f prev :
  pauses_close_rounds cfg w dl prev
    (trace (process_file cfg w TODAY tn dy dl c f)).
Proof.
  unfold process_file, call_mtime, try_upload, call_upload, delete_local,
    call_remove, destination_folder, logger, emit, lift, attempt, ret, raise,
    bind, trace, result; simpl.
  destruct (mtime_date w f) as [d | e]; simpl; [| tauto].
  destruct (le_days (days_between TODAY d) dy) as [[|] | e]; simpl; try tauto.
  destruct tn as [| n | t | l]; simpl; try tauto.
  destruct (upload_file w f (BUCKET cfg) _) as [[] | e] eqn:Hup;
    simpl; try tauto.
  destruct (is_delete dl) eqn:Hdel; simpl; [| tauto].
  destruct (remove w f) as [[] | []] eqn:Hrm; simpl; tauto.
Qed.

Lemma for_files_pauses cfg w TODAY tn dy dl files :
  forall c prev,
    pauses_close_rounds cfg w dl prev
      (trace (for_files cfg w TODAY tn dy dl files c)).
Proof.
  induction files as [| f files IH]; intros c prev.
  - exact I.
  - rewrite for_files_cons, trace_bind.
    destruct (result (process_file cfg w TODAY tn dy dl c f)) as [c1 | e].
    + apply pauses_close_rounds_app.
      * apply process_file_pauses.
      * intros prev'; apply IH.
    + apply process_file_pauses.
Qed.

(** C3, amended.  In the loop over a technology's files every pause
    lasts [SLEEP_TIME] and comes only after an upload that returned:
    right after that file's delete step under the delete policy, right
    after the upload otherwise, and never after an upload that raised.
    When the loop completes, it has slept once per upload that returned:
    the number of pauses is the number of successful uploads, which is
    what [files_sent] grew by. *)
Theorem pauses_follow_successful_uploads :
  forall cfg w TODAY tech_name days delete_option files c,
    let run := for_files cfg w TODAY tech_name days delete_option files c in
    pauses_close_rounds cfg w delete_option None (trace run) /\
    forall c',
      result run = Ok c' ->
      count_sleeps (trace run)
        = tally (upload_returned cfg w TODAY tech_name days) files /\
      files_sent c' = files_sent c + count_sleeps (trace run).
Proof.
  intros cfg w TODAY tech_name days delete_option files c run; subst run.
  split; [apply for_files_pauses |].
  intros c' H.
  destruct (for_files_counters _ _ _ _ _ _ _ _ _ H) as (_ & _ & Hs & Hz).
  split; [exact Hz | rewrite Hz; exact Hs].
Qed.

Lemma pauses_follow_successful_uploads_witness :
  let cfg := Scene.config Scene.one_table in
  let w := Scene.b_fails in
  let run := for_files cfg w Scene.run_day (PyStr "java") (PyInt 90)
                       (PyStr "delete") Scene.three_files no_files in
  result run = Ok (mkCounters 2 1 0) /\
  trace run
  = [EvStat "/data/A.class";
     EvUpload "/data/A.class" "forsendingtoaws" "s/java/h/2023/11/A.class";
     EvRemove "/data/A.class"; EvSleep 5;
     EvStat "/data/B.class";
     EvUpload "/data/B.class" "forsendingtoaws" "s/java/h/2023/11/B.class";
     EvLog ERROR (MsgUploadError "B.class");
     EvStat "/data/C.class";
     EvUpload "/data/C.class" "forsendingtoaws" "s/java/h/2023/11/C.class";
     EvRemove "/data/C.class"; EvSleep 5] /\
  pauses_close_rounds cfg w (PyStr "delete") None (trace run) /\
  count_sleeps (trace run)
    = tally (upload_returned cfg w Scene.run_day (PyStr "java") (PyInt 90))
            Scene.three_files /\
  2 = 0 + count_sleeps (trace run).
Proof.
  split; [reflexivity | split; [reflexivity |]].
  pose proof (pauses_follow_successful_uploads
                (Scene.config Scene.one_table) Scene.b_fails Scene.run_day
                (PyStr "java") (PyInt 90) (PyStr "delete") Scene.three_files
                no_files) as [Hp Hc].
  split; [exact Hp | exact (Hc (mkCounters 2 1 0) eq_refl)].
Defined.

(** ** Which uploads a run issues, and under which key *)

Section UploadFacts.

Variable cfg : Config.
Variable w : World.
Variable TODAY : date.
Variables tech_name days delete_option : PyVal.

Local Abbreviation explained :=
  (upload_explained cfg w TODAY tech_name days).

Lemma process_file_uploads c file_path p bucket key :
  In (EvUpload p bucket key)
     (trace (process_file cfg w TODAY tech_name days delete_option c file_path)) ->
  explained [file_path] p bucket key.
Proof.
  unfold upload_explained, in_window, process_file, call_mtime, try_upload,
    call_upload, delete_local, call_remove, logger, emit, lift, attempt, ret,
    raise, bind, trace, result; simpl.
  destruct (mtime_date w file_path) as [d | e] eqn:Hm; simpl;
    [| intros [H | []]; discriminate].
  destruct (le_days (days_between TODAY d) days) as [[|] | e] eqn:Hle; simpl;
    try (intros [H | []]; discriminate).
  destruct (destination_folder (SITE cfg) tech_name (hostname cfg w) d)
    as [folder | e] eqn:Hf; simpl;
    [| intros [H | [H | []]]; discriminate].
  assert (Hgoal : EvUpload file_path (BUCKET cfg)
                    (destination_key folder (basename file_path))
                  = EvUpload p bucket key ->
                  (file_path = p \/ False) /\ bucket = BUCKET cfg /\
                  exists d0 folder0,
                    match mtime_date w p with
                    | Ok d1 =>
                        match le_days (days_between TODAY d1) days with
                        | Ok true => Some d1
                        | _ => None
                        end
                    | Raise _ => None
                    end = Some d0 /\
                    destination_folder (SITE cfg) tech_name (hostname cfg w) d0
                      = Ok folder0 /\
                    key = destination_key folder0 (basename p)).
  { intros H; injection H as <- <- <-.
    split; [now left | split; [reflexivity |]].
    exists d, folder; rewrite Hm, Hle; auto. }
  destruct (upload_file w file_path (BUCKET cfg) _) as [[] | e]; simpl.
  - destruct (is_delete delete_option); simpl.
    + destruct (remove w file_path) as [[] | []]; simpl;
        intros H; repeat (destruct H as [H | H]; try discriminate);
        try contradiction; apply Hgoal; exact H.
    + intros H; repeat (destruct H as [H | H]; try discriminate);
        try contradiction; apply Hgoal; exact H.
  - intros H; repeat (destruct H as [H | H]; try discriminate);
      try contradiction; apply Hgoal; exact H.
Qed.

Lemma for_files_uploads files :
  forall c p bucket key,
    In (EvUpload p bucket key)
       (trace (for_files cfg w TODAY tech_name days delete_option files c)) ->
    explained files p bucket key.
Proof.
  induction files as [| f files IH]; intros c p bucket key.
  - intros [].
  - rewrite for_files_cons, trace_bind.
    assert (Hhead : In (EvUpload p bucket key)
                       (trace (process_file cfg w TODAY tech_name days
                                            delete_option c f)) ->
                    explained (f :: files) p bucket key).
    { intros H; apply process_file_uploads in H.
      destruct H as ([<- | []] & Hb & Hk); split; [now left | auto]. }
    destruct (result (process_file cfg w TODAY tech_name days delete_option c f))
      as [c1 | e]; [| exact Hhead].
    intros H; apply in_app_or in H; destruct H as [H | H]; [now apply Hhead |].
    apply IH in H; destruct H as (Hin & Hb & Hk); split; [now right | auto].
Qed.

End UploadFacts.

Lemma call_glob_result w a b : result (call_glob w a b) = glob w a b.
Proof. unfold call_glob, emit, lift, bind, result; simpl; reflexivity. Qed.

Lemma call_glob_trace w a b : trace (call_glob w a b) = [EvGlob a b].
Proof.
  unfold call_glob, emit, lift, bind, trace; simpl; destruct (glob w a b); reflexivity.
Qed.

Lemma classify_only_logs su c del ap tn e :
  In e (trace (classify su c del ap tn)) -> exists l m, e = EvLog l m.
Proof.
  unfold classify.
  destruct (exception_files c =? 0)%nat, (files_sent c =? 0)%nat,
    (undeleteable_files c =? 0)%nat, (is_delete del); simpl;
    intros [<- | []]; eauto.
Qed.

(** The uploads of one round of the loop over the table are those of its
    loop over the files, run with the entry's three fields. *)
Lemma process_technology_uploads cfg w TODAY su path entry p bucket key :
  In (EvUpload p bucket key)
     (trace (process_technology cfg w TODAY su path entry)) ->
  exists tech_name days delete_option files,
    entry = PyList [tech_name; days; delete_option] /\
    glob w (dirname (unescape_blanks path)) (basename path) = Ok files /\
    In (EvUpload p bucket key)
       (trace (for_files cfg w TODAY tech_name
                 (match days with
                  | PyNone => PyInt (DAYS_TO_CHECK cfg)
                  | _ => days
                  end)
                 delete_option files no_files)).
Proof.
  unfold process_technology.
  set (ap := dirname (unescape_blanks path)); set (fp := basename path).
  rewrite trace_bind, call_glob_result, call_glob_trace.
  destruct (glob w ap fp) as [files | e] eqn:Hg;
    [| intros [H | []]; discriminate].
  intros [H | H]; [discriminate |]; revert H.
  destruct (subscript0 entry) as [name0 | e] eqn:H0; [| intros []].
  rewrite bind_lift_ok; unfold logger; rewrite trace_emit_then.
  intros [H | H]; [discriminate |]; revert H.
  destruct entry as [| n | s | [| tn [| dy [| dl [| x l]]]]];
    try (simpl; intros [H | []]; discriminate).
  destruct (negb (isabs path)); [simpl; intros [H | []]; discriminate |].
  destruct (is_empty fp); [simpl; intros [H | []]; discriminate |].
  destruct files as [| f files]; [simpl; intros [H | []]; discriminate |].
  rewrite trace_bind.
  intros H; exists tn, dy, dl, (f :: files).
  split; [reflexivity | split; [reflexivity |]].
  destruct (result (for_files cfg w TODAY tn _ dl (f :: files) no_files))
    as [c | e]; [| exact H].
  apply in_app_or in H; destruct H as [H | H]; [exact H |].
  apply classify_only_logs in H; destruct H as (l & m & H); discriminate.
Qed.

(** ** The age window (l.121-132) *)

(** C8. A file whose age in days exceeds the effective window of its
    entry (the entry's second field, or [DAYS_TO_CHECK] when that field
    is [None]) is never handed to [upload_file] in that entry's round. *)
Theorem stale_files_never_uploaded :
  forall cfg w TODAY successfully_uploaded path tech_name days delete_option
         window p d bucket key,
    effective_window cfg days = Some window ->
    mtime_date w p = Ok d ->
    (window < days_between TODAY d)%Z ->
    ~ In (EvUpload p bucket key)
         (trace (process_technology cfg w TODAY successfully_uploaded path
                   (PyList [tech_name; days; delete_option]))).
Proof.
  intros cfg w TODAY su path tn dy dl window p d bucket key Hw Hm Hage Hin.
  apply process_technology_uploads in Hin.
  destruct Hin as (tn' & dy' & dl' & files & Hentry & _ & Hin).
  injection Hentry as <- <- <-.
  apply for_files_uploads in Hin.
  destruct Hin as (_ & _ & d' & folder & Hwin & _).
  unfold in_window in Hwin; rewrite Hm in Hwin.
  destruct dy as [| n | s | l]; simpl in Hw, Hwin; try discriminate;
    injection Hw as <-;
    destruct (days_between TODAY d <=? _)%Z eqn:Hle; try discriminate;
    apply Z.leb_le in Hle; lia.
Qed.

Lemma stale_files_never_uploaded_witness :
  ~ In (EvUpload "/data/A.class" "forsendingtoaws" "s/java/h/2023/11/A.class")
       (trace (process_technology
                 (Scene.config Scene.one_table) Scene.calm (mkdate 2024 3 1) 0
                 "/data/*.class"
                 (PyList [PyStr "java"; PyNone; PyStr "delete"]))).
Proof.
  apply (stale_files_never_uploaded
           (Scene.config Scene.one_table) Scene.calm (mkdate 2024 3 1) 0
           "/data/*.class" (PyStr "java") PyNone (PyStr "delete")
           5%Z "/data/A.class" Scene.modified).
  - reflexivity.
  - reflexivity.
  - vm_compute; reflexivity.
Defined.

(** ** Facts about [os.path.join] and [str] *)

Lemma append_assoc (a b c : string) : ((a ++ b) ++ c = a ++ (b ++ c))%string.
Proof. induction a as [| x a IH]; simpl; [| rewrite IH]; reflexivity. Qed.

Lemma is_empty_append (a b : string) :
  is_empty a = false -> is_empty (a ++ b) = false.
Proof. destruct a; [discriminate | reflexivity]. Qed.

Lemma endswith_slash_append (a b : string) :
  is_empty b = false -> endswith_slash (a ++ b) = endswith_slash b.
Proof.
  intros Hb; induction a as [| x a IH]; [reflexivity |].
  simpl; rewrite IH.
  destruct (a ++ b)%string eqn:Hab; [| reflexivity].
  destruct a; simpl in Hab; [subst b |]; discriminate.
Qed.

Lemma join_step_plain (path b : string) :
  is_empty path = false -> endswith_slash path = false ->
  startswith_slash b = false ->
  join_step path b = (path ++ "/" ++ b)%string.
Proof. unfold join_step; intros -> -> ->; reflexivity. Qed.

Lemma plain_component_parts (s : string) :
  plain_component s = true ->
  is_empty s = false /\ startswith_slash s = false /\ endswith_slash s = false.
Proof.
  unfold plain_component.
  destruct (is_empty s), (startswith_slash s), (endswith_slash s);
    simpl; intros H; try discriminate; auto.
Qed.

Lemma no_slash_ends (s : string) :
  contains_slash s = false ->
  startswith_slash s = false /\ endswith_slash s = false.
Proof.
  induction s as [| c s IH]; simpl; [auto |].
  intros H; apply orb_false_elim in H; destruct H as [Hc Hs].
  split; [exact Hc |].
  destruct s; [exact Hc | now apply IH].
Qed.

Lemma digits_no_slash (d : Decimal.uint) :
  contains_slash (NilEmpty.string_of_uint d) = false.
Proof. induction d; simpl; auto. Qed.

Lemma numeral_no_slash (d : Decimal.uint) :
  contains_slash (NilZero.string_of_uint d) = false.
Proof. destruct d; try reflexivity; apply (digits_no_slash (_ d)). Qed.

Lemma numeral_not_empty (d : Decimal.uint) :
  is_empty (NilZero.string_of_uint d) = false.
Proof. destruct d; reflexivity. Qed.

(** [str] of an integer is a non-empty string without a slash. *)
Lemma str_int_plain (z : Z) : plain_component (str_int z) = true.
Proof.
  unfold plain_component, str_int, NilZero.string_of_int.
  destruct (Z.to_int z) as [d | d].
  - destruct (no_slash_ends _ (numeral_no_slash d)) as [-> ->].
    now rewrite numeral_not_empty.
  - simpl.
    pose proof (numeral_not_empty d) as Hne.
    destruct (no_slash_ends _ (numeral_no_slash d)) as [_ He].
    destruct (NilZero.string_of_uint d); [discriminate | now rewrite He].
Qed.

Lemma nzhead_no_zero (d : Decimal.uint) :
  match Decimal.nzhead d with Decimal.D0 _ => False | _ => True end.
Proof. induction d; simpl; auto. Qed.

(** [str] of a positive integer does not begin with a zero. *)
Lemma str_int_unpadded (z : Z) : (0 < z)%Z -> leading_zero (str_int z) = false.
Proof.
  destruct z as [| p | p]; try lia; intros _.
  unfold str_int, Z.to_int, NilZero.string_of_int.
  assert (Hn : Pos.to_uint p = Decimal.unorm (Pos.to_uint p)).
  { rewrite <- DecimalPos.Unsigned.to_of, DecimalPos.Unsigned.of_to; reflexivity. }
  pose proof (DecimalPos.Unsigned.to_uint_nonzero p) as Hz.
  pose proof (nzhead_no_zero (Pos.to_uint p)) as Hh.
  unfold Decimal.unorm in Hn.
  destruct (Decimal.nzhead (Pos.to_uint p)) eqn:Hnz;
    rewrite Hn; try reflexivity; contradiction.
Qed.

Lemma is_empty_append_r (a b : string) :
  is_empty b = false -> is_empty (a ++ b) = false.
Proof. destruct a; [exact (fun H => H) | reflexivity]. Qed.

Lemma endswith_slash_joined (a b : string) :
  is_empty b = false -> endswith_slash (a ++ "/" ++ b) = endswith_slash b.
Proof.
  intros Hb; rewrite endswith_slash_append by reflexivity.
  destruct b; [discriminate | reflexivity].
Qed.

(** With plain components [os.path.join] is concatenation with slashes. *)
Lemma join_plain (site t host y m : string) :
  plain_root site = true -> plain_component t = true ->
  plain_component host = true -> plain_component y = true ->
  plain_component m = true ->
  join site [t; host; y; m]
  = (site ++ "/" ++ t ++ "/" ++ host ++ "/" ++ y ++ "/" ++ m)%string.
Proof.
  intros Hs Ht Hh Hy Hm.
  apply plain_component_parts in Ht, Hh, Hy, Hm.
  destruct Ht as (Ht1 & Ht2 & Ht3), Hh as (Hh1 & Hh2 & Hh3),
           Hy as (Hy1 & Hy2 & Hy3), Hm as (Hm1 & Hm2 & Hm3).
  unfold plain_root in Hs; apply andb_prop in Hs; destruct Hs as [Hs1 Hs2].
  apply negb_true_iff in Hs1, Hs2.
  unfold join; simpl fold_left.
  rewrite (join_step_plain site t Hs1 Hs2 Ht2).
  rewrite (join_step_plain _ host)
    by (rewrite ?endswith_slash_joined; auto using is_empty_append).
  rewrite (join_step_plain _ y)
    by (rewrite ?endswith_slash_joined; auto using is_empty_append).
  rewrite (join_step_plain _ m)
    by (rewrite ?endswith_slash_joined; auto using is_empty_append).
  rewrite !append_assoc; reflexivity.
Qed.

(** Whatever the other components are, the folder ends with the year and
    the month of the date, each written by [str]. *)
Lemma destination_folder_tail site tech_name host d folder :
  destination_folder site tech_name host d = Ok folder ->
  exists prefix,
    folder = (prefix ++ str_int (year d) ++ "/" ++ str_int (month d))%string.
Proof.
  destruct tech_name as [| n | t | l]; simpl; try discriminate.
  intros H; injection H as <-.
  unfold join; simpl fold_left.
  set (X := join_step (join_step site t) host).
  destruct (plain_component_parts _ (str_int_plain (year d))) as (Hy1 & Hy2 & Hy3).
  destruct (plain_component_parts _ (str_int_plain (month d))) as (Hm1 & Hm2 & Hm3).
  assert (HX : exists prefix, join_step X (str_int (year d))
                              = (prefix ++ str_int (year d))%string).
  { unfold join_step at 1; rewrite Hy2.
    destruct (is_empty X || endswith_slash X).
    - now exists X.
    - exists (X ++ "/")%string; now rewrite append_assoc. }
  destruct HX as [prefix ->]; exists prefix.
  rewrite join_step_plain; auto using is_empty_append_r.
  - now rewrite append_assoc.
  - now rewrite endswith_slash_append.
Qed.

Lemma in_window_mtime w TODAY days p d :
  in_window w TODAY days p = Some d -> mtime_date w p = Ok d.
Proof.
  unfold in_window.
  destruct (mtime_date w p) as [d' | e]; [| discriminate].
  destruct (le_days (days_between TODAY d') days) as [[|] | e];
    try discriminate.
  now intros H; injection H as <-.
Qed.

(** ** The destination key (l.131-136) *)

(** C7, as claimed, fails: a technology name that starts with a slash
    makes [os.path.join] drop the site, so the file goes to a key that
    is not [SITE/TECHNOLOGY/HOSTNAME/YEAR/MONTH/filename]. *)
Lemma absolute_technology_name_resets_key :
  let cfg := Scene.config
               [("/data/*.class", PyList [PyStr "/java"; PyInt 90; PyStr "keep"])] in
  let run := send_files cfg Scene.calm Scene.run_day in
  In (EvUpload "/data/A.class" "forsendingtoaws" "/java/h/2023/11/A.class")
     (trace run) /\
  ~ In (EvUpload "/data/A.class" "forsendingtoaws"
                 (documented_key "s" "/java" "h" Scene.modified "A.class"))
       (trace run).
Proof.
  vm_compute; split.
  - tauto.
  - intros H; repeat (destruct H as [H | H]; [discriminate |]); exact H.
Qed.

(** C7, amended.  When the site is a non-empty string that does not end
    with a slash, and the technology name and the host name are
    non-empty strings with no slash at either end, every upload of a
    technology's loop goes to
    [SITE/TECHNOLOGY/HOSTNAME/YEAR/MONTH/filename], with the year and the
    month of the file's own modification date.  For site [s], technology
    [java], host [h], date 2023-11-02 and file [A.class] the key is
    [s/java/h/2023/11/A.class]. *)
Theorem upload_key_follows_layout :
  (forall cfg w TODAY t days delete_option files c p bucket key,
      plain_root (SITE cfg) = true ->
      plain_component t = true ->
      plain_component (hostname cfg w) = true ->
      In (EvUpload p bucket key)
         (trace (for_files cfg w TODAY (PyStr t) days delete_option files c)) ->
      exists d,
        mtime_date w p = Ok d /\
        key = documented_key (SITE cfg) t (hostname cfg w) d (basename p))
  /\ destination_folder "s" (PyStr "java") "h" (mkdate 2023 11 2)
     = Ok "s/java/h/2023/11"
  /\ destination_key "s/java/h/2023/11" "A.class" = "s/java/h/2023/11/A.class".
Proof.
  split; [| split; reflexivity].
  intros cfg w TODAY t days delete_option files c p bucket key Hs Ht Hh Hin.
  apply for_files_uploads in Hin.
  destruct Hin as (_ & _ & d & folder & Hwin & Hf & ->).
  exists d; split; [now apply in_window_mtime with TODAY days |].
  unfold destination_folder in Hf; injection Hf as <-.
  pose proof (join_plain (SITE cfg) t (hostname cfg w) _ _ Hs Ht Hh
                (str_int_plain (year d)) (str_int_plain (month d))) as Hj.
  unfold join in Hj; simpl fold_left in Hj; rewrite Hj.
  unfold destination_key, documented_key.
  rewrite !append_assoc; reflexivity.
Qed.

Lemma upload_key_follows_layout_witness :
  exists d,
    mtime_date Scene.calm "/data/A.class" = Ok d /\
    "s/java/h/2023/11/A.class"
    = documented_key "s" "java" "h" d (basename "/data/A.class").
Proof.
  apply (proj1 upload_key_follows_layout
               (Scene.config Scene.one_table) Scene.calm Scene.run_day
               "java" (PyInt 90) (PyStr "delete") Scene.three_files no_files
               "/data/A.class" "forsendingtoaws" "s/java/h/2023/11/A.class").
  - reflexivity.
  - reflexivity.
  - reflexivity.
  - vm_compute; tauto.
Defined.

(** C10. Every upload of a technology's loop goes to a key that ends
    with [str(year)/str(month)/filename] for the file's modification
    date; [str] of a positive number has no zero in front, so the month
    of 2023-03-05 is written [3]: the folder is [s/java/h/2023/3]. *)
Theorem key_year_month_unpadded :
  (forall cfg w TODAY tech_name days delete_option files c p bucket key,
      In (EvUpload p bucket key)
         (trace (for_files cfg w TODAY tech_name days delete_option files c)) ->
      exists d prefix,
        mtime_date w p = Ok d /\
        key = (prefix ++ str_int (year d) ++ "/" ++ str_int (month d)
                      ++ "/" ++ basename p)%string)
  /\ (forall z, (0 < z)%Z -> leading_zero (str_int z) = false)
  /\ destination_folder "s" (PyStr "java") "h" (mkdate 2023 3 5)
     = Ok "s/java/h/2023/3".
Proof.
  split; [| split; [exact str_int_unpadded | reflexivity]].
  intros cfg w TODAY tech_name days delete_option files c p bucket key Hin.
  apply for_files_uploads in Hin.
  destruct Hin as (_ & _ & d & folder & Hwin & Hf & ->).
  apply destination_folder_tail in Hf; destruct Hf as [prefix ->].
  exists d, prefix; split; [now apply in_window_mtime with TODAY days |].
  unfold destination_key; rewrite !append_assoc; reflexivity.
Qed.

Lemma key_year_month_unpadded_witness :
  exists d prefix,
    mtime_date Scene.calm "/data/A.class" = Ok d /\
    "s/java/h/2023/11/A.class"
    = (prefix ++ str_int (year d) ++ "/" ++ str_int (month d)
              ++ "/" ++ basename "/data/A.class")%string.
Proof.
  apply (proj1 key_year_month_unpadded
               (Scene.config Scene.one_table) Scene.calm Scene.run_day
               (PyStr "java") (PyInt 90) (PyStr "delete") Scene.three_files
               no_files "/data/A.class" "forsendingtoaws").
  vm_compute; tauto.
Defined.

(** ** The empty table and the bucket check (l.86-100) *)

(** C5, as claimed, fails: with an empty table and a bucket that answers
    403 the run reports the bucket, and the empty table goes unreported. *)
Lemma empty_table_hidden_by_bucket_error :
  let run := send_files (Scene.config []) Scene.forbidden Scene.run_day in
  trace run = [EvHeadBucket "forsendingtoaws";
               EvLog ERROR (MsgPrivateBucket "forsendingtoaws")] /\
  ~ In (EvLog ERROR MsgNoTechnologies) (trace run).
Proof.
  vm_compute; split; [reflexivity |].
  intros H; repeat (destruct H as [H | H]; [discriminate |]); exact H.
Qed.

(** C5, amended.  With an empty table no technology is processed (no
    glob, stat, upload, remove or sleep), and the empty-table error is
    written exactly when the bucket check returned; then it is the only
    record and [send_files] returns at once. *)
Theorem empty_table_reported_after_bucket_check :
  forall cfg w TODAY,
    TECHNOLOGIES cfg = [] ->
    let run := send_files cfg w TODAY in
    filter is_processing (trace run) = [] /\
    (In (EvLog ERROR MsgNoTechnologies) (trace run) <->
     head_bucket w (BUCKET cfg) = Ok tt) /\
    (head_bucket w (BUCKET cfg) = Ok tt ->
     trace run = [EvHeadBucket (BUCKET cfg); EvLog ERROR MsgNoTechnologies] /\
     result run = Ok tt).
Proof.
  intros cfg w TODAY Hempty run; subst run.
  unfold send_files, call_head_bucket, attempt, logger, emit, lift, raise, ret,
    bind, trace, result.
  rewrite Hempty; simpl.
  destruct (head_bucket w (BUCKET cfg)) as [[] | e]; simpl.
  - repeat split; auto.
  - destruct e as [| | | | | | | | [code |] | | | |]; simpl;
      try (destruct (code =? 403)%Z; [| destruct (code =? 404)%Z]); simpl;
      (split; [reflexivity |]);
      (split; [split; [intros H;
                       repeat (destruct H as [H | H]; [discriminate |]);
                       contradiction
                      | discriminate]
              | discriminate]).
Qed.

Lemma empty_table_reported_after_bucket_check_witness :
  let run := send_files (Scene.config []) Scene.calm Scene.run_day in
  filter is_processing (trace run) = [] /\
  (In (EvLog ERROR MsgNoTechnologies) (trace run) <-> Ok tt = Ok tt) /\
  (Ok tt = Ok tt ->
   trace run = [EvHeadBucket "forsendingtoaws"; EvLog ERROR MsgNoTechnologies] /\
   result run = Ok tt).
Proof.
  exact (empty_table_reported_after_bucket_check
           (Scene.config []) Scene.calm Scene.run_day eq_refl).
Defined.

(** ** Validation of a table entry (l.101-118) *)

(** An entry that is not a list of three fields but has a first item is
    passed over: the round writes the start line and the
    configuration error, returns the count unchanged, and calls nothing
    but the glob made before the check. *)
Lemma malformed_entry_with_head_is_skipped cfg w TODAY su path entry name0 files :
  is_list3 entry = false ->
  subscript0 entry = Ok name0 ->
  glob w (dirname (unescape_blanks path)) (basename path) = Ok files ->
  process_technology cfg w TODAY su path entry
  = ([EvGlob (dirname (unescape_blanks path)) (basename path);
      EvLog INFO (MsgStarting (dirname (unescape_blanks path)) name0);
      EvLog ERROR (MsgIncorrectValue (dirname (unescape_blanks path)))],
     Ok su).
Proof.
  intros H3 H0 Hg.
  unfold process_technology, call_glob, logger, emit, lift, ret, bind.
  rewrite Hg, H0; simpl.
  destruct entry as [| n | s | [| a [| b [| c [| x l]]]]];
    try reflexivity; discriminate.
Qed.

(** C6. The entry [["java", 90]] is passed over with the configuration
    error and nothing is uploaded or removed; but an entry with no first
    item never reaches the check: the start line subscripts it first, so
    [[]] ends the run with [IndexError] and [90] with [TypeError], and no
    configuration error is written. *)
Theorem malformed_entry_can_escape_validation :
  let run_of entry :=
    send_files (Scene.config [("/data/*.class", entry)]) Scene.calm
               Scene.run_day in
  (trace (run_of (PyList [PyStr "java"; PyInt 90]))
   = [EvHeadBucket "forsendingtoaws"; EvGlob "/data" "*.class";
      EvLog INFO (MsgStarting "/data" (PyStr "java"));
      EvLog ERROR (MsgIncorrectValue "/data");
      EvLog INFO (MsgTotal 1); EvLog INFO (MsgSuccessful 0);
      EvLog WARNING (MsgIssues 1)] /\
   result (run_of (PyList [PyStr "java"; PyInt 90])) = Ok tt)
  /\ (trace (run_of (PyList []))
      = [EvHeadBucket "forsendingtoaws"; EvGlob "/data" "*.class"] /\
      result (run_of (PyList [])) = Raise IndexError)
  /\ (trace (run_of (PyInt 90))
      = [EvHeadBucket "forsendingtoaws"; EvGlob "/data" "*.class"] /\
      result (run_of (PyInt 90)) = Raise TypeError).
Proof. vm_compute; repeat split. Qed.

(** ** Exceptions that leave the run (l.142-148, l.214-234) *)

(** C2. Two runs that end with an exception instead of a report: on a
    read-only directory [os.remove] raises an [OSError] that
    [except PermissionError] lets through, and with an interpreter the
    version check turns down [TODAY] is read before it was ever bound.
    In both no mail is sent and nothing is printed. *)
Theorem backup_can_end_with_an_exception :
  let cfg := Scene.config Scene.one_table in
  (result (backup cfg Scene.read_only) = Raise OSError /\
   console (trace (backup cfg Scene.read_only)) = [] /\
   trace (backup cfg Scene.read_only)
   = [EvLog INFO MsgEnvCreated; EvHeadBucket "forsendingtoaws";
      EvGlob "/data" "*.class";
      EvLog INFO (MsgStarting "/data" (PyStr "java"));
      EvStat "/data/A.class";
      EvUpload "/data/A.class" "forsendingtoaws" "s/java/h/2023/11/A.class";
      EvRemove "/data/A.class"])
  /\ (result (backup cfg Scene.old_python) = Raise UnboundLocalError /\
      trace (backup cfg Scene.old_python)
      = [EvLog ERROR (MsgVersion 3 5 2); EvLog ERROR MsgZeroFiles;
         EvLog INFO (MsgSendingEmail "ops@example.org")]).
Proof. vm_compute; repeat split. Qed.

(** ** Delivery of the report (l.186-212, l.227-233) *)

Lemma console_app (s t : list Event) : console (s ++ t) = console s ++ console t.
Proof.
  induction s as [| [] s IH]; simpl; rewrite ?IH; reflexivity.
Qed.

(** [send_files] prints nothing. *)
Lemma process_file_silent cfg w TODAY tn dy dl c f :
  console (trace (process_file cfg w TODAY tn dy dl c f)) = [].
Proof.
  unfold process_file, call_mtime, try_upload, call_upload, delete_local,
    call_remove, destination_folder, logger, emit, lift, attempt, ret, raise,
    bind, trace, result; simpl.
  destruct (mtime_date w f) as [d | e]; simpl; [| reflexivity].
  destruct (le_days (days_between TODAY d) dy) as [[|] | e]; simpl;
    try reflexivity.
  destruct tn as [| n | t | l]; simpl; try reflexivity.
  destruct (upload_file w f (BUCKET cfg) _) as [[] | e]; simpl;
    [| reflexivity].
  destruct (is_delete dl); simpl; [| reflexivity].
  destruct (remove w f) as [[] | []]; reflexivity.
Qed.

Lemma for_files_silent cfg w TODAY tn dy dl files :
  forall c, console (trace (for_files cfg w TODAY tn dy dl files c)) = [].
Proof.
  induction files as [| f files IH]; intros c; [reflexivity |].
  rewrite for_files_cons, trace_bind.
  destruct (result (process_file cfg w TODAY tn dy dl c f)) as [c1 | e].
  - now rewrite console_app, process_file_silent, IH.
  - apply process_file_silent.
Qed.

Lemma classify_silent su c dl ap tn : console (trace (classify su c dl ap tn)) = [].
Proof.
  unfold classify.
  destruct (exception_files c =? 0)%nat, (files_sent c =? 0)%nat,
    (undeleteable_files c =? 0)%nat, (is_delete dl); reflexivity.
Qed.

Lemma process_technology_silent cfg w TODAY su path entry :
  console (trace (process_technology cfg w TODAY su path entry)) = [].
Proof.
  unfold process_technology.
  rewrite trace_bind, call_glob_result, call_glob_trace.
  destruct (glob w _ _) as [files | e]; [| reflexivity].
  destruct (subscript0 entry) as [name0 | e]; [| reflexivity].
  rewrite bind_lift_ok; unfold logger; rewrite trace_emit_then.
  cbn [app console].
  destruct entry as [| n | s | [| tn [| dy [| dl [| x l]]]]]; try reflexivity.
  destruct (negb (isabs path)); [reflexivity |].
  destruct (is_empty (basename path)); [reflexivity |].
  destruct files as [| f files]; [reflexivity |].
  rewrite trace_bind.
  destruct (result (for_files cfg w TODAY tn _ dl (f :: files) no_files))
    as [c | e].
  - now rewrite console_app, for_files_silent, classify_silent.
  - apply for_files_silent.
Qed.

Lemma for_technologies_silent cfg w TODAY table :
  forall su, console (trace (for_technologies cfg w TODAY table su)) = [].
Proof.
  induction table as [| [path entry] table IH]; intros su; [reflexivity |].
  change (for_technologies cfg w TODAY ((path, entry) :: table) su)
    with (bind (process_technology cfg w TODAY su path entry)
               (fun n => for_technologies cfg w TODAY table n)).
  rewrite trace_bind.
  destruct (result (process_technology cfg w TODAY su path entry)) as [n | e].
  - now rewrite console_app, process_technology_silent, IH.
  - apply process_technology_silent.
Qed.

Lemma send_files_silent cfg w TODAY :
  console (trace (send_files cfg w TODAY)) = [].
Proof.
  unfold send_files.
  rewrite trace_bind.
  assert (Hr : result (attempt (call_head_bucket cfg w))
               = Ok (head_bucket w (BUCKET cfg))).
  { unfold attempt, call_head_bucket, emit, lift, bind, result; simpl.
    destruct (head_bucket w (BUCKET cfg)); reflexivity. }
  assert (Ht : trace (attempt (call_head_bucket cfg w))
               = [EvHeadBucket (BUCKET cfg)]).
  { unfold attempt, call_head_bucket, emit, lift, bind, trace; simpl.
    destruct (head_bucket w (BUCKET cfg)); reflexivity. }
  rewrite Hr, Ht; cbn [app console].
  destruct (head_bucket w (BUCKET cfg)) as [[] | e].
  - destruct (TECHNOLOGIES cfg) as [| x table] eqn:Htab; [reflexivity |].
    rewrite trace_bind.
    destruct (result (for_technologies cfg w TODAY (x :: table) 0)) as [n | e].
    + rewrite console_app, for_technologies_silent; simpl.
      destruct (n <? _)%nat; reflexivity.
    + apply for_technologies_silent.
  - destruct e as [| | | | | | | | [code |] | | | |]; try reflexivity.
    destruct (code =? 403)%Z; [reflexivity |].
    destruct (code =? 404)%Z; reflexivity.
Qed.

(** * Further properties of the program *)

(** ** The ledger of the per-file loop (l.126-148) *)

Ltac open_round :=
  unfold escapes in *;
  unfold removed, attempted, delete_denied, upload_raised, upload_returned in *;
  unfold upload_outcome in *; unfold in_window in *;
  unfold process_file, call_mtime, try_upload, call_upload, delete_local,
    call_remove, destination_folder, logger, emit, lift, attempt, ret,
    raise, bind, trace, result, count_sleeps, count_removes, b2n in *.

Lemma count_removes_app s t :
  count_removes (s ++ t) = count_removes s + count_removes t.
Proof. unfold count_removes; now rewrite filter_app, length_app. Qed.

Lemma stats_app s t : stats (s ++ t) = stats s ++ stats t.
Proof. induction s as [| [] s IH]; simpl; rewrite ?IH; reflexivity. Qed.

Lemma process_file_ledger cfg w TODAY tn dy dl c f c' :
  result (process_file cfg w TODAY tn dy dl c f) = Ok c' ->
  b2n (upload_returned cfg w TODAY tn dy f) + b2n (upload_raised cfg w TODAY tn dy f)
    = b2n (attempted w TODAY dy f) /\
  count_removes (trace (process_file cfg w TODAY tn dy dl c f))
    = b2n (upload_returned cfg w TODAY tn dy f && is_delete dl) /\
  b2n (removed cfg w TODAY tn dy dl f) + b2n (delete_denied cfg w TODAY tn dy dl f)
    = b2n (upload_returned cfg w TODAY tn dy f && is_delete dl) /\
  stats (trace (process_file cfg w TODAY tn dy dl c f)) = [f].
Proof.
  open_round; simpl.
  destruct (mtime_date w f) as [d | e]; simpl; [| discriminate].
  destruct (le_days (days_between TODAY d) dy) as [[|] | e]; simpl;
    try discriminate; [| intros _; auto].
  destruct tn as [| n | t | l]; simpl; try (intros _; solve [auto]).
  destruct (upload_file w f (BUCKET cfg) _) as [[] | e]; simpl;
    [| intros _; auto].
  destruct (is_delete dl); simpl; [| intros _; auto].
  destruct (remove w f) as [[] | []]; simpl; try discriminate; intros _; auto.
Qed.

Lemma for_files_ledger cfg w TODAY tn dy dl files :
  forall c c',
    result (for_files cfg w TODAY tn dy dl files c) = Ok c' ->
    tally (upload_returned cfg w TODAY tn dy) files
    + tally (upload_raised cfg w TODAY tn dy) files
      = tally (attempted w TODAY dy) files /\
    count_removes (trace (for_files cfg w TODAY tn dy dl files c))
      = tally (fun f => upload_returned cfg w TODAY tn dy f && is_delete dl) files /\
    tally (removed cfg w TODAY tn dy dl) files
    + tally (delete_denied cfg w TODAY tn dy dl) files
      = tally (fun f => upload_returned cfg w TODAY tn dy f && is_delete dl) files /\
    stats (trace (for_files cfg w TODAY tn dy dl files c)) = files.
Proof.
  induction files as [| f files IH]; intros c c'.
  - intros _; unfold tally, count_removes, trace, ret; simpl; auto.
  - rewrite for_files_cons, trace_bind, result_bind, !tally_cons.
    destruct (result (process_file cfg w TODAY tn dy dl c f))
      as [c1 | e] eqn:Hf; [| discriminate].
    intros Hrest.
    destruct (process_file_ledger _ _ _ _ _ _ _ _ _ Hf) as (Ha & Hr & Hd & Hs).
    destruct (IH _ _ Hrest) as (Ha' & Hr' & Hd' & Hs').
    rewrite count_removes_app, stats_app, Hs, Hs'.
    repeat split; try lia; reflexivity.
Qed.

(** X1. When the loop over a technology's files completes, every file
    of the list was stat-ed exactly once and in order; the files counted
    as sent and those counted as failed are together the files found in
    the window; and no more files are counted undeletable than sent. *)
Theorem transfer_ledger_balances :
  forall cfg w TODAY tech_name days delete_option files c',
    let run := for_files cfg w TODAY tech_name days delete_option files
                         no_files in
    result run = Ok c' ->
    stats (trace run) = files /\
    files_sent c' + exception_files c' = tally (attempted w TODAY days) files /\
    undeleteable_files c' <= files_sent c'.
Proof.
  intros cfg w TODAY tn dy dl files c' run H; subst run.
  destruct (for_files_counters _ _ _ _ _ _ _ _ _ H) as (He & Hu & Hs & _).
  destruct (for_files_ledger _ _ _ _ _ _ _ _ _ H) as (Ha & _ & Hd & Hst).
  simpl in He, Hu, Hs.
  split; [exact Hst | split; [lia |]].
  rewrite Hu, Hs.
  assert (Hle : forall l,
             tally (fun f => upload_returned cfg w TODAY tn dy f && is_delete dl) l
             <= tally (upload_returned cfg w TODAY tn dy) l).
  { induction l as [| x l IHl]; [apply Nat.le_refl |].
    rewrite !tally_cons.
    destruct (upload_returned cfg w TODAY tn dy x), (is_delete dl); simpl; lia. }
  specialize (Hle files); lia.
Qed.

Lemma transfer_ledger_balances_witness :
  let cfg := Scene.config Scene.one_table in
  let w := Scene.b_fails in
  let run := for_files cfg w Scene.run_day (PyStr "java") (PyInt 90)
                       (PyStr "delete") Scene.three_files no_files in
  stats (trace run) = Scene.three_files /\
  2 + 1 = tally (attempted w Scene.run_day (PyInt 90)) Scene.three_files /\
  0 <= 2.
Proof.
  exact (transfer_ledger_balances
           (Scene.config Scene.one_table) Scene.b_fails Scene.run_day
           (PyStr "java") (PyInt 90) (PyStr "delete") Scene.three_files
           (mkCounters 2 1 0) eq_refl).
Defined.

Lemma tally_none (p : string -> bool) (files : list string) :
  (forall f, p f = false) -> tally p files = 0.
Proof.
  intros Hp; induction files as [| f files IH]; [reflexivity |].
  now rewrite tally_cons, Hp, IH.
Qed.

Lemma guarded_trace_without_policy cfg w dl t :
  is_delete dl = false ->
  forall prev, deletes_follow_uploads cfg w dl prev t -> count_removes t = 0.
Proof.
  intros Hdl; induction t as [| e t IH]; intros prev; [reflexivity |].
  intros [He Ht]; specialize (IH _ Ht).
  destruct e; try exact IH.
  destruct He as [He _]; congruence.
Qed.

(** X2. Under any policy other than ['delete'] the loop over a
    technology's files never calls [os.remove], whether it completes or
    not, and it leaves [undeleteable_files] as it was. *)
Theorem keep_policy_never_removes :
  forall cfg w TODAY tech_name days delete_option files c,
    is_delete delete_option = false ->
    let run := for_files cfg w TODAY tech_name days delete_option files c in
    count_removes (trace run) = 0 /\
    forall c', result run = Ok c' ->
               undeleteable_files c' = undeleteable_files c.
Proof.
  intros cfg w TODAY tn dy dl files c Hdl run; subst run; split.
  - apply (guarded_trace_without_policy cfg w dl _ Hdl None).
    apply for_files_deletes.
  - intros c' H.
    destruct (for_files_counters _ _ _ _ _ _ _ _ _ H) as (_ & Hu & _).
    rewrite Hu, tally_none; [lia |].
    intros f; unfold delete_denied; rewrite Hdl.
    now rewrite andb_false_r.
Qed.

Lemma keep_policy_never_removes_witness :
  let run := for_files (Scene.config Scene.one_table) Scene.a_protected
                       Scene.run_day (PyStr "java") (PyInt 90) (PyStr "keep")
                       Scene.three_files no_files in
  count_removes (trace run) = 0 /\
  forall c', result run = Ok c' -> undeleteable_files c' = 0.
Proof.
  exact (keep_policy_never_removes
           (Scene.config Scene.one_table) Scene.a_protected Scene.run_day
           (PyStr "java") (PyInt 90) (PyStr "keep") Scene.three_files no_files
           eq_refl).
Defined.

(** X3. Under the ['delete'] policy, when the loop completes, [os.remove]
    was called once per file sent, and the files actually removed are
    the files sent less the undeletable ones: with no undeletable file,
    the count of the line "Successfully deleted N files" is exact. *)
Theorem deletions_match_the_report :
  forall cfg w TODAY tech_name days delete_option files c',
    is_delete delete_option = true ->
    let run := for_files cfg w TODAY tech_name days delete_option files
                         no_files in
    result run = Ok c' ->
    count_removes (trace run) = files_sent c' /\
    tally (removed cfg w TODAY tech_name days delete_option) files
    + undeleteable_files c' = files_sent c' /\
    (undeleteable_files c' = 0 ->
     tally (removed cfg w TODAY tech_name days delete_option) files
     = files_sent c').
Proof.
  intros cfg w TODAY tn dy dl files c' Hdl run H; subst run.
  destruct (for_files_counters _ _ _ _ _ _ _ _ _ H) as (_ & Hu & Hs & _).
  destruct (for_files_ledger _ _ _ _ _ _ _ _ _ H) as (_ & Hr & Hd & _).
  simpl in Hu, Hs.
  assert (Heq : tally (fun f => upload_returned cfg w TODAY tn dy f && is_delete dl)
                      files
                = tally (upload_returned cfg w TODAY tn dy) files).
  { clear - Hdl; induction files as [| x l IHl]; [reflexivity |].
    now rewrite !tally_cons, IHl, Hdl, andb_true_r. }
  rewrite Heq in Hr, Hd.
  repeat split; try lia.
Qed.

Lemma deletions_match_the_report_witness :
  let cfg := Scene.config Scene.one_table in
  let w := Scene.a_protected in
  let run := for_files cfg w Scene.run_day (PyStr "java") (PyInt 90)
                       (PyStr "delete") Scene.three_files no_files in
  count_removes (trace run) = 3 /\
  tally (removed cfg w Scene.run_day (PyStr "java") (PyInt 90) (PyStr "delete"))
        Scene.three_files + 1 = 3 /\
  (1 = 0 ->
   tally (removed cfg w Scene.run_day (PyStr "java") (PyInt 90) (PyStr "delete"))
         Scene.three_files = 3).
Proof.
  exact (deletions_match_the_report
           (Scene.config Scene.one_table) Scene.a_protected Scene.run_day
           (PyStr "java") (PyInt 90) (PyStr "delete") Scene.three_files
           (mkCounters 3 0 1) eq_refl eq_refl).
Defined.

(** ** Exceptions that leave the per-file loop *)

Lemma process_file_escape cfg w TODAY tn dy dl c f e :
  result (process_file cfg w TODAY tn dy dl c f) = Raise e ->
  escapes cfg w TODAY tn dy dl f e.
Proof.
  open_round; simpl.
  destruct (mtime_date w f) as [d | e0]; simpl;
    [| intros H; injection H as <-; now left].
  destruct (le_days (days_between TODAY d) dy) as [[|] | e0] eqn:Hle; simpl;
    try discriminate.
  - destruct tn as [| n | t | l]; simpl; try discriminate.
    destruct (upload_file w f (BUCKET cfg) _) as [[] | e0]; simpl;
      [| discriminate].
    destruct (is_delete dl); simpl; [| discriminate].
    destruct (remove w f) as [[] | e0] eqn:Hrm; simpl; [discriminate |].
    destruct e0; simpl; try discriminate;
      intros H; injection H as <-; right; right;
      repeat split; discriminate.
  - intros H; injection H as <-.
    assert (e0 = TypeError) as ->.
    { destruct dy; simpl in Hle; congruence. }
    right; left; split; [reflexivity | exists d; auto].
Qed.

Lemma for_files_escape cfg w TODAY tn dy dl files :
  forall c e,
    result (for_files cfg w TODAY tn dy dl files c) = Raise e ->
    exists f, In f files /\ escapes cfg w TODAY tn dy dl f e.
Proof.
  induction files as [| f files IH]; intros c e; [discriminate |].
  rewrite for_files_cons, result_bind.
  destruct (result (process_file cfg w TODAY tn dy dl c f)) as [c1 | e1] eqn:Hf.
  - intros H; destruct (IH _ _ H) as (g & Hin & Hg).
    exists g; split; [now right | exact Hg].
  - intros H; injection H as <-.
    exists f; split; [now left | now apply process_file_escape with c].
Qed.

(** X4. An exception that leaves the loop over a technology's files
    comes from one of its files, and is a failing [os.stat], a
    [TypeError] from comparing the age with a window that is not a
    number, or an [os.remove] raising something other than
    [PermissionError] after an upload that returned: an exception of the
    upload itself never leaves the loop. *)
Theorem what_leaves_the_file_loop :
  forall cfg w TODAY tech_name days delete_option files c e,
    result (for_files cfg w TODAY tech_name days delete_option files c)
      = Raise e ->
    exists f,
      In f files /\ escapes cfg w TODAY tech_name days delete_option f e.
Proof.
  intros cfg w TODAY tn dy dl files c e H.
  now apply for_files_escape with c.
Qed.

Lemma what_leaves_the_file_loop_witness :
  exists f,
    In f Scene.three_files /\
    escapes (Scene.config Scene.one_table) Scene.read_only Scene.run_day
            (PyStr "java") (PyInt 90) (PyStr "delete") f OSError.
Proof.
  exact (what_leaves_the_file_loop
           (Scene.config Scene.one_table) Scene.read_only Scene.run_day
           (PyStr "java") (PyInt 90) (PyStr "delete") Scene.three_files
           no_files OSError eq_refl).
Defined.

(** X5. When every file of the list can be stat-ed, the window is an
    integer and [os.remove] raises nothing but [PermissionError], the
    loop over the files completes, whatever the uploads do. *)
Theorem upload_failures_never_stop_the_loop :
  forall cfg w TODAY tech_name n delete_option files c,
    (forall f, In f files -> exists d, mtime_date w f = Ok d) ->
    (forall f e, In f files -> remove w f = Raise e -> e = PermissionError) ->
    exists c',
      result (for_files cfg w TODAY tech_name (PyInt n) delete_option files c)
      = Ok c'.
Proof.
  intros cfg w TODAY tn n dl files c Hstat Hrm.
  destruct (result (for_files cfg w TODAY tn (PyInt n) dl files c))
    as [c' | e] eqn:H; [now exists c' |].
  apply for_files_escape in H; destruct H as (f & Hin & Hesc).
  destruct (Hstat f Hin) as [d Hd].
  destruct Hesc as [Hs | [(_ & d' & _ & Hle) | (_ & _ & Hr & Hne)]].
  - congruence.
  - discriminate.
  - elim Hne; now apply (Hrm f).
Qed.

Lemma upload_failures_never_stop_the_loop_witness :
  exists c',
    result (for_files (Scene.config Scene.one_table) Scene.lone_failure
                      Scene.run_day (PyStr "java") (PyInt 90) (PyStr "delete")
                      Scene.three_files no_files)
    = Ok c'.
Proof.
  apply (upload_failures_never_stop_the_loop
           (Scene.config Scene.one_table) Scene.lone_failure Scene.run_day
           (PyStr "java") 90%Z (PyStr "delete") Scene.three_files no_files).
  - intros f _; exists Scene.modified; reflexivity.
  - intros f e _ H; discriminate H.
Defined.

(** ** The backup phase keeps to its own steps *)

Lemma process_file_steps cfg w TODAY tn dy dl c f :
  forallb is_backup_step (trace (process_file cfg w TODAY tn dy dl c f)) = true
  /\ globs (trace (process_file cfg w TODAY tn dy dl c f)) = [].
Proof.
  unfold process_file, call_mtime, try_upload, call_upload, delete_local,
    call_remove, destination_folder, logger, emit, lift, attempt, ret, raise,
    bind, trace, result; simpl.
  destruct (mtime_date w f) as [d | e]; simpl; [| auto].
  destruct (le_days (days_between TODAY d) dy) as [[|] | e]; simpl; auto.
  destruct tn as [| n | t | l]; simpl; auto.
  destruct (upload_file w f (BUCKET cfg) _) as [[] | e]; simpl; auto.
  destruct (is_delete dl); simpl; auto.
  destruct (remove w f) as [[] | []]; simpl; auto.
Qed.

Lemma globs_app s t : globs (s ++ t) = globs s ++ globs t.
Proof. induction s as [| [] s IH]; simpl; rewrite ?IH; reflexivity. Qed.

Lemma for_files_steps cfg w TODAY tn dy dl files :
  forall c,
    forallb is_backup_step (trace (for_files cfg w TODAY tn dy dl files c)) = true
    /\ globs (trace (for_files cfg w TODAY tn dy dl files c)) = [].
Proof.
  induction files as [| f files IH]; intros c; [split; reflexivity |].
  rewrite for_files_cons, trace_bind.
  destruct (process_file_steps cfg w TODAY tn dy dl c f) as [Hs Hg].
  destruct (result (process_file cfg w TODAY tn dy dl c f)) as [c1 | e];
    [| split; assumption].
  destruct (IH c1) as [Hs' Hg'].
  now rewrite forallb_app, globs_app, Hs, Hs', Hg, Hg'.
Qed.

Lemma classify_outcome su c dl ap tn :
  exists lvl m,
    trace (classify su c dl ap tn) = [EvLog lvl m] /\
    (result (classify su c dl ap tn) = Ok su \/
     result (classify su c dl ap tn) = Ok (su + 1)).
Proof.
  unfold classify.
  destruct (exception_files c =? 0)%nat, (files_sent c =? 0)%nat,
    (undeleteable_files c =? 0)%nat, (is_delete dl); simpl; eauto.
Qed.

(** One round of the loop over the table: the glob comes first and is
    the only one; every step is a backup step; the count goes up by one
    at most. *)
Lemma process_technology_round cfg w TODAY su path entry :
  forallb is_backup_step (trace (process_technology cfg w TODAY su path entry))
    = true /\
  globs (trace (process_technology cfg w TODAY su path entry)) = [glob_of path] /\
  forall n, result (process_technology cfg w TODAY su path entry) = Ok n ->
            n = su \/ n = su + 1.
Proof.
  unfold process_technology, glob_of.
  rewrite trace_bind, result_bind, call_glob_result, call_glob_trace.
  destruct (glob w _ _) as [files | e];
    [| repeat split; discriminate].
  destruct (subscript0 entry) as [name0 | e];
    [| repeat split; discriminate].
  rewrite bind_lift_ok; unfold logger.
  rewrite trace_emit_then.
  assert (Hres : forall A (e : Event) (k : W A),
             result (bind (emit e) (fun _ => k)) = result k).
  { intros A e k; unfold bind, emit, result; destruct k; reflexivity. }
  rewrite Hres; cbn [app forallb globs is_backup_step andb].
  assert (Hskip : forall lvl m,
             forallb is_backup_step (trace (bind (emit (EvLog lvl m))
                                                 (fun _ => ret su))) = true /\
             globs (trace (bind (emit (EvLog lvl m)) (fun _ => ret su))) = [] /\
             forall n, result (bind (emit (EvLog lvl m)) (fun _ => ret su)) = Ok n ->
                       n = su \/ n = su + 1).
  { intros lvl m; repeat split.
    intros n H; injection H as <-; now left. }
  assert (Hwrap : forall t : W nat,
             forallb is_backup_step (trace t) = true /\
             globs (trace t) = [] /\
             (forall n, result t = Ok n -> n = su \/ n = su + 1) ->
             forallb is_backup_step (trace t) = true /\
             (dirname (unescape_blanks path), basename path) :: globs (trace t)
             = [(dirname (unescape_blanks path), basename path)] /\
             (forall n, result t = Ok n -> n = su \/ n = su + 1)).
  { intros t (H1 & H2 & H3); rewrite H2; auto. }
  apply Hwrap.
  destruct entry as [| n | s | [| tn [| dy [| dl [| x l]]]]];
    try apply Hskip.
  destruct (negb (isabs path)); [apply Hskip |].
  destruct (is_empty (basename path)); [apply Hskip |].
  destruct files as [| f files]; [apply Hskip |].
  rewrite trace_bind, result_bind.
  destruct (for_files_steps cfg w TODAY tn
              (match dy with PyNone => PyInt (DAYS_TO_CHECK cfg) | _ => dy end)
              dl (f :: files) no_files) as [Hs Hg].
  destruct (result (for_files cfg w TODAY tn _ dl (f :: files) no_files))
    as [c | e]; [| repeat split; auto; discriminate].
  destruct (classify_outcome su c dl (dirname (unescape_blanks path)) tn)
    as (lvl & m & Ht & Hr).
  rewrite forallb_app, globs_app, Hs, Hg, Ht; simpl.
  repeat split.
  intros n Hn; destruct Hr as [Hr | Hr]; rewrite Hr in Hn;
    injection Hn as <-; auto.
Qed.

Lemma for_technologies_cons cfg w TODAY path entry table su :
  for_technologies cfg w TODAY ((path, entry) :: table) su =
  bind (process_technology cfg w TODAY su path entry)
       (fun n => for_technologies cfg w TODAY table n).
Proof. reflexivity. Qed.

Lemma for_technologies_rounds cfg w TODAY table :
  forall su,
    forallb is_backup_step (trace (for_technologies cfg w TODAY table su)) = true
    /\ forall n,
        result (for_technologies cfg w TODAY table su) = Ok n ->
        su <= n <= su + length table /\
        globs (trace (for_technologies cfg w TODAY table su))
        = map (fun item => glob_of (fst item)) table.
Proof.
  induction table as [| [path entry] table IH]; intros su.
  - split; [reflexivity |].
    intros n H; injection H as <-; simpl; split; [lia | reflexivity].
  - rewrite for_technologies_cons, trace_bind, result_bind.
    destruct (process_technology_round cfg w TODAY su path entry)
      as (Hs & Hg & Hn).
    destruct (result (process_technology cfg w TODAY su path entry))
      as [k | e]; [| split; [exact Hs | discriminate]].
    destruct (IH k) as [Hs' Hrest].
    split; [now rewrite forallb_app, Hs, Hs' |].
    intros n H; destruct (Hrest n H) as [Hb Hgl].
    rewrite globs_app, Hg, Hgl; simpl.
    split; [| reflexivity].
    destruct (Hn k eq_refl); lia.
Qed.

(** ** [send_files] as a whole (l.80-173) *)

Lemma bucket_check_result cfg w :
  result (attempt (call_head_bucket cfg w)) = Ok (head_bucket w (BUCKET cfg)).
Proof.
  unfold attempt, call_head_bucket, emit, lift, bind, result; simpl.
  destruct (head_bucket w (BUCKET cfg)); reflexivity.
Qed.

Lemma bucket_check_trace cfg w :
  trace (attempt (call_head_bucket cfg w)) = [EvHeadBucket (BUCKET cfg)].
Proof.
  unfold attempt, call_head_bucket, emit, lift, bind, trace; simpl.
  destruct (head_bucket w (BUCKET cfg)); reflexivity.
Qed.

(** [send_files] after a bucket check that returned, over a table that
    is not empty. *)
Lemma send_files_over_table cfg w TODAY :
  head_bucket w (BUCKET cfg) = Ok tt ->
  TECHNOLOGIES cfg <> [] ->
  send_files cfg w TODAY
  = bind (emit (EvHeadBucket (BUCKET cfg)))
         (fun _ =>
            bind (for_technologies cfg w TODAY (TECHNOLOGIES cfg) 0)
                 (fun k =>
                    let n := length (TECHNOLOGIES cfg) in
                    bind (logger INFO (MsgTotal n))
                         (fun _ =>
                            bind (logger INFO (MsgSuccessful k))
                                 (fun _ =>
                                    if (k <? n)%nat
                                    then logger WARNING (MsgIssues (n - k))
                                    else logger INFO (MsgIssues (n - k)))))).
Proof.
  intros Hb Ht.
  unfold send_files.
  generalize (for_technologies cfg w TODAY); intros loop.
  unfold attempt, call_head_bucket, logger, emit, lift, bind; simpl.
  rewrite Hb; simpl.
  destruct (TECHNOLOGIES cfg) as [| x table]; [now elim Ht |].
  destruct (loop (x :: table) 0) as [t [k | e]]; simpl; [| reflexivity].
  destruct (k <? S (length table))%nat; reflexivity.
Qed.

(** X6. When the table is not empty, the bucket check returned and the
    loop over the table completed with [k] technologies fully
    successful, [send_files] returns, [k] is at most the number of
    entries, and the trace ends with the three summary records: the
    total, [k], and the shortfall, which is a warning when [k] is less
    than the total and an info line about zero issues otherwise. *)
Theorem summary_closes_the_backup :
  forall cfg w TODAY k,
    head_bucket w (BUCKET cfg) = Ok tt ->
    TECHNOLOGIES cfg <> [] ->
    result (for_technologies cfg w TODAY (TECHNOLOGIES cfg) 0) = Ok k ->
    let n := length (TECHNOLOGIES cfg) in
    k <= n /\
    result (send_files cfg w TODAY) = Ok tt /\
    trace (send_files cfg w TODAY)
    = EvHeadBucket (BUCKET cfg)
        :: trace (for_technologies cfg w TODAY (TECHNOLOGIES cfg) 0)
        ++ [EvLog INFO (MsgTotal n); EvLog INFO (MsgSuccessful k);
            if (k =? n)%nat then EvLog INFO (MsgIssues 0)
            else EvLog WARNING (MsgIssues (n - k))].
Proof.
  intros cfg w TODAY k Hb Ht Hk n.
  destruct (for_technologies_rounds cfg w TODAY (TECHNOLOGIES cfg) 0)
    as [_ Hr].
  destruct (Hr k Hk) as [[_ Hle] _]; simpl in Hle; fold n in Hle.
  split; [exact Hle |].
  rewrite (send_files_over_table cfg w TODAY Hb Ht).
  unfold logger, emit, bind, trace, result in *; simpl.
  destruct (for_technologies cfg w TODAY (TECHNOLOGIES cfg) 0) as [t r].
  simpl in Hk; subst r; fold n.
  destruct (k =? n)%nat eqn:Heq.
  - apply Nat.eqb_eq in Heq.
    replace (k <? n)%nat with false by (symmetry; apply Nat.ltb_ge; lia).
    replace (n - k) with 0 by lia.
    split; reflexivity.
  - apply Nat.eqb_neq in Heq.
    replace (k <? n)%nat with true by (symmetry; apply Nat.ltb_lt; lia).
    split; reflexivity.
Qed.

Lemma summary_closes_the_backup_witness :
  let cfg := Scene.config Scene.one_table in
  let w := Scene.b_fails in
  0 <= 1 /\
  result (send_files cfg w Scene.run_day) = Ok tt /\
  trace (send_files cfg w Scene.run_day)
  = EvHeadBucket "forsendingtoaws"
      :: trace (for_technologies cfg w Scene.run_day Scene.one_table 0)
      ++ [EvLog INFO (MsgTotal 1); EvLog INFO (MsgSuccessful 0);
          EvLog WARNING (MsgIssues 1)].
Proof.
  apply (summary_closes_the_backup
           (Scene.config Scene.one_table) Scene.b_fails Scene.run_day 0).
  - reflexivity.
  - discriminate.
  - reflexivity.
Defined.

(** X7. When the bucket check returned and [send_files] returns, every
    entry of the table was globbed exactly once, in the order of the
    table, each with the directory and the pattern its key stands for:
    entries that fail validation are globbed too. *)
Theorem every_entry_is_globbed_once :
  forall cfg w TODAY,
    head_bucket w (BUCKET cfg) = Ok tt ->
    result (send_files cfg w TODAY) = Ok tt ->
    globs (trace (send_files cfg w TODAY))
    = map (fun item => glob_of (fst item)) (TECHNOLOGIES cfg).
Proof.
  intros cfg w TODAY Hb.
  destruct (TECHNOLOGIES cfg) as [| x table] eqn:Htab.
  - intros _.
    unfold send_files, attempt, call_head_bucket, logger, emit, lift, bind,
      trace; simpl.
    rewrite Hb, Htab; reflexivity.
  - assert (Hne : TECHNOLOGIES cfg <> []) by (rewrite Htab; discriminate).
    rewrite (send_files_over_table cfg w TODAY Hb Hne), Htab.
    destruct (for_technologies_rounds cfg w TODAY (x :: table) 0) as [_ Hr].
    revert Hr.
    generalize (for_technologies cfg w TODAY (x :: table) 0).
    intros [t [k | e]] Hr;
      unfold logger, emit, bind, trace, result in *; simpl in *;
      [| discriminate].
    destruct (Hr k eq_refl) as [_ Hg].
    intros _.
    destruct (k <? S (length table))%nat; simpl;
      now rewrite globs_app, Hg, app_nil_r.
Qed.

Lemma every_entry_is_globbed_once_witness :
  globs (trace (send_files (Scene.config Scene.one_table) Scene.calm
                           Scene.run_day))
  = [glob_of "/data/*.class"].
Proof.
  apply (every_entry_is_globbed_once
           (Scene.config Scene.one_table) Scene.calm Scene.run_day);
    reflexivity.
Defined.

Lemma send_files_steps cfg w TODAY :
  forallb is_backup_step (trace (send_files cfg w TODAY)) = true.
Proof.
  unfold send_files.
  rewrite trace_bind, bucket_check_result, bucket_check_trace.
  cbn [app forallb is_backup_step andb].
  destruct (head_bucket w (BUCKET cfg)) as [[] | e].
  - destruct (TECHNOLOGIES cfg) as [| x table]; [reflexivity |].
    rewrite trace_bind.
    destruct (for_technologies_rounds cfg w TODAY (x :: table) 0) as [Hs _].
    destruct (result (for_technologies cfg w TODAY (x :: table) 0)) as [k | e];
      [| exact Hs].
    rewrite forallb_app, Hs; simpl.
    destruct (k <? _)%nat; reflexivity.
  - destruct e as [| | | | | | | | [code |] | | | |]; try reflexivity.
    destruct (code =? 403)%Z; [reflexivity |].
    destruct (code =? 404)%Z; reflexivity.
Qed.

(** X9. When the bucket check raises [EndpointConnectionError], or a
    [ClientError] whose code is a number, [send_files] returns without
    processing any technology and without the summary; it writes one
    error record for a connection error, for 403 and for 404, and
    for any other code it writes nothing at all. *)
Theorem bucket_error_stops_the_backup :
  forall cfg w TODAY e,
    head_bucket w (BUCKET cfg) = Raise e ->
    e = EndpointConnectionError \/ (exists code, e = ClientError (Some code)) ->
    let run := send_files cfg w TODAY in
    result run = Ok tt /\
    filter is_outward (trace run) = [] /\
    forallb is_error_record (getvalue (trace run)) = true /\
    length (getvalue (trace run)) <= 1 /\
    (getvalue (trace run) = [] <->
     exists code, e = ClientError (Some code) /\ code <> 403%Z /\ code <> 404%Z).
Proof.
  intros cfg w TODAY e Hb He run; subst run.
  unfold send_files, attempt, call_head_bucket, logger, emit, lift, raise, ret,
    bind, trace, result; simpl.
  rewrite Hb; simpl.
  destruct He as [-> | [code ->]]; simpl.
  - repeat split; auto.
    + discriminate.
    + intros (code & H & _); discriminate.
  - destruct (code =? 403)%Z eqn:H3; [| destruct (code =? 404)%Z eqn:H4]; simpl.
    + apply Z.eqb_eq in H3; repeat split; auto.
      * discriminate.
      * intros (c & H & Hn & _); injection H as <-; contradiction.
    + apply Z.eqb_eq in H4; repeat split; auto.
      * discriminate.
      * intros (c & H & _ & Hn); injection H as <-; contradiction.
    + apply Z.eqb_neq in H3, H4; repeat split; auto.
      intros _; exists code; auto.
Qed.

Lemma bucket_error_stops_the_backup_witness :
  let run := send_files (Scene.config Scene.one_table) Scene.forbidden
                        Scene.run_day in
  result run = Ok tt /\
  filter is_outward (trace run) = [] /\
  forallb is_error_record (getvalue (trace run)) = true /\
  length (getvalue (trace run)) <= 1 /\
  (getvalue (trace run) = [] <->
   exists code, ClientError (Some 403%Z) = ClientError (Some code) /\
                code <> 403%Z /\ code <> 404%Z).
Proof.
  apply (bucket_error_stops_the_backup
           (Scene.config Scene.one_table) Scene.forbidden Scene.run_day
           (ClientError (Some 403%Z))).
  - reflexivity.
  - right; exists 403%Z; reflexivity.
Defined.

(** ** Table keys (l.102-103, l.110) *)

Lemma basename_no_slash (p : string) : contains_slash (basename p) = false.
Proof.
  induction p as [| c r IH]; [reflexivity |].
  simpl; destruct (contains_slash r) eqn:Hr; [exact IH |].
  destruct (Ascii.eqb c slash) eqn:Hc; [exact Hr |].
  simpl; now rewrite Hc, Hr.
Qed.

Lemma head_and_basename (p : string) :
  (head_upto_slash p ++ basename p)%string = p.
Proof.
  induction p as [| c r IH]; [reflexivity |].
  simpl; destruct (contains_slash r).
  - simpl; now rewrite IH.
  - destruct (Ascii.eqb c slash) eqn:Hc; [| reflexivity].
    apply Ascii.eqb_eq in Hc; now subst c.
Qed.

Lemma unescape_keeps_root (p : string) :
  startswith_slash p = true -> startswith_slash (unescape_blanks p) = true.
Proof.
  destruct p as [| c r]; [discriminate |].
  simpl; intros Hc; apply Ascii.eqb_eq in Hc; subst c.
  destruct r; reflexivity.
Qed.

Lemma dirname_keeps_root (p : string) :
  startswith_slash p = true -> startswith_slash (dirname p) = true.
Proof.
  destruct p as [| c r]; [discriminate |].
  simpl; intros Hc; apply Ascii.eqb_eq in Hc; subst c.
  unfold dirname; cbn [head_upto_slash].
  destruct (contains_slash r); [| reflexivity].
  change (Ascii.eqb slash slash) with true.
  cbn [is_empty all_slashes negb andb].
  change (Ascii.eqb slash slash) with true; cbn [andb].
  destruct (all_slashes (head_upto_slash r)) eqn:Hall; cbn [negb].
  - reflexivity.
  - cbn [rstrip_slash]; rewrite Hall; reflexivity.
Qed.

(** X11. The directory part and the pattern a table key is split into
    give the key back when put together; the pattern never has a slash
    in it; and when the key is an absolute path, the directory that is
    globbed is absolute as well. *)
Theorem table_key_splits_cleanly :
  forall path,
    (head_upto_slash path ++ basename path)%string = path /\
    contains_slash (basename path) = false /\
    (isabs path = true -> isabs (dirname (unescape_blanks path)) = true).
Proof.
  intros path; split; [apply head_and_basename |].
  split; [apply basename_no_slash |].
  unfold isabs; intros H.
  now apply dirname_keeps_root, unescape_keeps_root.
Qed.

(** ** [backup] as a whole (l.214-234) *)

Lemma backup_steps_only (t : list Event) :
  forallb is_backup_step t = true ->
  mails t = [] /\ console t = [] /\ filter is_close t = [].
Proof.
  induction t as [| e t IH]; [auto |].
  simpl; intros H; apply andb_prop in H; destruct H as [He Ht].
  destruct (IH Ht) as (Hm & Hc & Hl).
  destruct e; simpl in *; try discriminate; auto.
Qed.

Lemma mails_app s t : mails (s ++ t) = mails s ++ mails t.
Proof. induction s as [| [] s IH]; simpl; rewrite ?IH; reflexivity. Qed.

(** X12. With an interpreter the version check turns down, [backup]
    calls neither the bucket, the filesystem nor the mail server and
    prints nothing: it writes the two error records and the line that
    announces the mail, and ends with [UnboundLocalError] because
    [TODAY] was never bound. *)
Theorem rejected_interpreter_sends_no_report :
  forall cfg w major minor micro,
    version_info w = (major, minor, micro) ->
    major <> 3%Z \/ (minor < 6)%Z ->
    backup cfg w
    = ([EvLog ERROR (MsgVersion major minor micro); EvLog ERROR MsgZeroFiles;
        EvLog INFO (MsgSendingEmail (MAIL_TO cfg))],
       Raise UnboundLocalError).
Proof.
  intros cfg w major minor micro Hv Hbad.
  unfold backup, backup_steps; rewrite Hv.
  replace (negb (major =? 3)%Z || (minor <? 6)%Z) with true; [reflexivity |].
  symmetry; apply orb_true_iff.
  destruct Hbad as [H | H].
  - left; apply negb_true_iff, Z.eqb_neq; exact H.
  - right; apply Z.ltb_lt; exact H.
Qed.

Lemma rejected_interpreter_sends_no_report_witness :
  backup (Scene.config Scene.one_table) Scene.old_python
  = ([EvLog ERROR (MsgVersion 3 5 2); EvLog ERROR MsgZeroFiles;
      EvLog INFO (MsgSendingEmail "ops@example.org")],
     Raise UnboundLocalError).
Proof.
  apply (rejected_interpreter_sends_no_report
           (Scene.config Scene.one_table) Scene.old_python 3%Z 5%Z 2%Z).
  - reflexivity.
  - right; lia.
Defined.

(** X8. Whatever the configuration and the collaborators, and whether it
    returns or raises, [send_files] only logs and calls the bucket and
    the filesystem: it never opens an SMTP session, never prints and
    never closes the logger. *)
Theorem send_files_keeps_to_the_backup :
  forall cfg w TODAY,
    let t := trace (send_files cfg w TODAY) in
    forallb is_backup_step t = true /\
    mails t = [] /\ console t = [] /\ filter is_close t = [].
Proof.
  intros cfg w TODAY t; subst t.
  split; [apply send_files_steps |].
  apply backup_steps_only, send_files_steps.
Qed.

(** ** What the file loop writes to the report (l.139, l.147) *)

Lemma process_file_records cfg w TODAY tn dy dl c f c' :
  result (process_file cfg w TODAY tn dy dl c f) = Ok c' ->
  getvalue (trace (process_file cfg w TODAY tn dy dl c f))
  = owed_records cfg w TODAY tn dy dl f.
Proof.
  unfold owed_records; open_round; simpl.
  destruct (mtime_date w f) as [d | e]; simpl; [| discriminate].
  destruct (le_days (days_between TODAY d) dy) as [[|] | e]; simpl;
    try discriminate; [| reflexivity].
  destruct tn as [| n | t | l]; simpl; try reflexivity.
  destruct (upload_file w f (BUCKET cfg) _) as [[] | e]; simpl;
    [| reflexivity].
  destruct (is_delete dl); simpl; [| reflexivity].
  destruct (remove w f) as [[] | []]; simpl; try discriminate; reflexivity.
Qed.

(** X15. When the loop over a technology's files completes, what it
    wrote to the report is, in the order of the files, one error record
    with the file's name for each upload that raised and one error
    record with the file's path for each removal that was denied, and
    nothing else. *)
Theorem every_failure_is_on_the_report :
  forall cfg w TODAY tech_name days delete_option files c c',
    let run := for_files cfg w TODAY tech_name days delete_option files c in
    result run = Ok c' ->
    getvalue (trace run)
    = flat_map (owed_records cfg w TODAY tech_name days delete_option) files.
Proof.
  intros cfg w TODAY tn dy dl files; simpl.
  induction files as [| f files IH]; intros c c'; [reflexivity |].
  rewrite for_files_cons, trace_bind, result_bind.
  destruct (result (process_file cfg w TODAY tn dy dl c f)) as [c1 | e] eqn:Hf;
    [| discriminate].
  intros H; simpl.
  now rewrite getvalue_app, (process_file_records _ _ _ _ _ _ _ _ _ Hf),
    (IH _ _ H).
Qed.

Lemma every_failure_is_on_the_report_witness :
  let cfg := Scene.config Scene.one_table in
  let w := Scene.b_fails in
  getvalue (trace (for_files cfg w Scene.run_day (PyStr "java") (PyInt 90)
                             (PyStr "delete") Scene.three_files no_files))
  = flat_map (owed_records cfg w Scene.run_day (PyStr "java") (PyInt 90)
                           (PyStr "delete"))
             Scene.three_files.
Proof.
  exact (every_failure_is_on_the_report
           (Scene.config Scene.one_table) Scene.b_fails Scene.run_day
           (PyStr "java") (PyInt 90) (PyStr "delete") Scene.three_files
           no_files (mkCounters 2 1 0) eq_refl).
Defined.

(** ** When a technology counts as fully successful (l.101-166) *)

(** X16. A round of the loop over the table adds one to
    [successfully_uploaded] exactly when the entry has three fields, its
    key is absolute with a pattern, the glob returned at least one
    file, and the loop over the files completed with no failed upload,
    no undeletable file and at least one file sent. *)
Theorem round_counts_only_full_success :
  forall cfg w TODAY su path entry,
    result (process_technology cfg w TODAY su path entry) = Ok (su + 1) <->
    exists tech_name days delete_option files c,
      entry = PyList [tech_name; days; delete_option] /\
      isabs path = true /\ is_empty (basename path) = false /\
      glob w (dirname (unescape_blanks path)) (basename path) = Ok files /\
      files <> [] /\
      result (for_files cfg w TODAY tech_name
                (match days with
                 | PyNone => PyInt (DAYS_TO_CHECK cfg)
                 | _ => days
                 end)
                delete_option files no_files) = Ok c /\
      exception_files c = 0 /\ undeleteable_files c = 0 /\ 0 < files_sent c.
Proof.
  intros cfg w TODAY su path entry.
  assert (Hskip : forall lvl m,
             result (bind (emit (EvLog lvl m)) (fun _ => ret su)) = Ok (su + 1)
             -> False).
  { intros lvl m H; unfold bind, emit, ret, result in H; simpl in H.
    injection H as H; lia. }
  assert (Hres : forall A (e : Event) (k : W A),
             result (bind (emit e) (fun _ => k)) = result k).
  { intros A e k; unfold bind, emit, result; destruct k; reflexivity. }
  assert (Hcl : forall c dl ap tn,
             result (classify su c dl ap tn) = Ok (su + 1) <->
             exception_files c = 0 /\ undeleteable_files c = 0 /\
             0 < files_sent c).
  { intros c dl ap tn; unfold classify.
    destruct (exception_files c) as [| ef];
      destruct (files_sent c) as [| fs];
      destruct (undeleteable_files c) as [| uf];
      destruct (is_delete dl); simpl; split;
      try (intros H; injection H as H); try (intros (? & ? & ?));
      repeat split; try lia; try discriminate. }
  unfold process_technology.
  rewrite result_bind, call_glob_result.
  destruct (glob w _ _) as [files | e] eqn:Hg.
  2:{ split; [discriminate |].
      intros (tn & dy & dl & fl & c & _ & _ & _ & H & _); discriminate. }
  destruct (subscript0 entry) as [name0 | e] eqn:H0.
  2:{ split; [discriminate |].
      intros (tn & dy & dl & fl & c & -> & _); discriminate. }
  rewrite bind_lift_ok; unfold logger; rewrite Hres.
  destruct entry as [| n | s | [| tn [| dy [| dl [| x l]]]]];
    try (split; [intros H; elim (Hskip _ _ H)
                | intros (? & ? & ? & ? & ? & He & _); discriminate]).
  destruct (isabs path) eqn:Habs; cbn [negb].
  2:{ split; [intros H; elim (Hskip _ _ H) |].
      intros (? & ? & ? & ? & ? & _ & H & _); discriminate. }
  destruct (is_empty (basename path)) eqn:Hpat.
  { split; [intros H; elim (Hskip _ _ H) |].
    intros (? & ? & ? & ? & ? & _ & _ & H & _); discriminate. }
  destruct files as [| f files].
  { split; [intros H; elim (Hskip _ _ H) |].
    intros (? & ? & ? & fl & ? & _ & _ & _ & H & Hne & _).
    injection H as <-; now elim Hne. }
  rewrite result_bind.
  split.
  - destruct (result (for_files cfg w TODAY tn _ dl (f :: files) no_files))
      as [c | e] eqn:Hloop; [| discriminate].
    intros H; apply Hcl in H; destruct H as (H1 & H2 & H3).
    exists tn, dy, dl, (f :: files), c.
    repeat split; auto; discriminate.
  - intros (tn' & dy' & dl' & fl & c & He & _ & _ & Hfl & _ & Hloop & Hc).
    injection He as <- <- <-; injection Hfl as <-.
    rewrite Hloop; apply Hcl; exact Hc.
Qed.

(** ** The mail step (l.186-212) *)

Lemma build_headers_trace cfg w d : trace (build_headers cfg w d) = [].
Proof.
  unfold build_headers, lift, bind, trace.
  destruct (set_header w "Subject" (subject cfg d)) as [[] | e]; simpl; [| reflexivity].
  destruct (set_header w "From" (EMAIL_FROM cfg)) as [[] | e]; simpl; [| reflexivity].
  destruct (set_header w "To" (MAIL_TO cfg)) as [[] | e]; reflexivity.
Qed.

(** [send_email] when a header is turned down: the exception leaves it
    before anything else happens. *)
Lemma send_email_rejected cfg w d h e :
  result (build_headers cfg w d) = Raise e ->
  send_email cfg w d h = ([], Raise e).
Proof.
  intros H; pose proof (build_headers_trace cfg w d) as Ht.
  unfold send_email, rbind, blind.
  destruct (build_headers cfg w d) as [t r]; unfold trace, result in *;
    simpl in *; subst; reflexivity.
Qed.

(** [send_email] when the headers are accepted: the steps of the session,
    then one error record if the session raised. *)
Lemma send_email_accepted cfg w d h :
  result (build_headers cfg w d) = Ok tt ->
  exists logs,
    send_email cfg w d h
    = (trace (dispatch cfg w d h) ++ logs,
       Ok match result (dispatch cfg w d h) with
          | Ok _ => true
          | Raise _ => false
          end) /\
    match result (dispatch cfg w d h) with
    | Ok _ => logs = []
    | Raise _ => exists m, logs = [EvLog ERROR m]
    end.
Proof.
  intros H; pose proof (build_headers_trace cfg w d) as Ht.
  unfold send_email, rbind, blind, rattempt, attempt.
  destruct (build_headers cfg w d) as [t r]; unfold trace, result in *;
    simpl in *; subst.
  rewrite app_nil_r.
  destruct (dispatch cfg w d h) as [tD [[] | e]]; simpl.
  - exists []; split; reflexivity.
  - destruct e; simpl; eexists; split; try reflexivity; eauto.
Qed.

Lemma dispatch_steps cfg w d h :
  console (trace (dispatch cfg w d h)) = [] /\
  filter is_close (trace (dispatch cfg w d h)) = [] /\
  getvalue (trace (dispatch cfg w d h)) = [] /\
  mails (trace (dispatch cfg w d h))
  = match smtp_connect w (MAIL_SERVER cfg) (PORT_NO cfg),
          smtp_login w (EMAIL_FROM cfg) (EMAIL_PASSWORD cfg),
          set_content w (getvalue h) with
    | Ok _, Ok _, Ok _ =>
        [EvSmtp (SITE cfg) d (EMAIL_FROM cfg) (MAIL_TO cfg) (getvalue h)]
    | _, _, _ => []
    end.
Proof.
  unfold dispatch, rbind, blind, read_buffer, emit, lift, ret, bind, trace;
    simpl.
  destruct (smtp_connect w _ _) as [[] | e]; simpl; [| repeat split].
  destruct (smtp_login w _ _) as [[] | e]; simpl; [| repeat split].
  rewrite !getvalue_app; simpl; rewrite !app_nil_r.
  destruct (set_content w (getvalue h)) as [[] | e]; simpl; [| repeat split].
  destruct (smtp_send w _ _ _) as [[] | e]; simpl; [| repeat split].
  destruct (smtp_quit w) as [[] | e]; simpl; repeat split.
Qed.

Lemma backup_after_backup_phase cfg w :
  version_ok w = true ->
  result (send_files cfg w (today w)) = Ok tt ->
  backup cfg w
  = let h := history_at_mail cfg w in
    match send_email cfg w (today w) h with
    | (tE, Raise e) => (h ++ tE, Raise e)
    | (tE, Ok flag) =>
        let pre := h ++ tE
                     ++ (if flag : bool then [] else [EvLog ERROR MsgUnableToSend]) in
        let c := if flag then ConsoleLine (confirmation cfg)
                 else ConsoleReport (getvalue pre) in
        match print_out w c with
        | Ok _ => (pre ++ [EvPrint c; EvCloseLogger], Ok tt)
        | Raise e => (pre ++ [EvPrint c], Raise e)
        end
    end.
Proof.
  unfold version_ok, backup, backup_steps, history_at_mail.
  destruct (version_info w) as [[major minor] micro].
  rewrite Z.leb_antisym.
  destruct (major =? 3)%Z; [| discriminate].
  destruct (minor <? 6)%Z; [discriminate |]; intros _.
  generalize (send_files cfg w (today w)); intros [tS rS] H.
  unfold result, trace in *; simpl in H; subst rS.
  unfold rbind, blind, read_buffer, close_logger, call_print, logger, emit,
    lift, ret, bind; simpl.
  rewrite !app_nil_r.
  destruct (send_email cfg w (today w) _) as [tE [[|] | e]]; simpl.
  - destruct (print_out w _) as [[] | e]; simpl;
      rewrite <- ?app_assoc; simpl; rewrite ?app_nil_r; reflexivity.
  - rewrite <- !app_assoc; simpl.
    destruct (print_out w _) as [[] | e]; simpl;
      rewrite <- ?app_assoc; simpl; reflexivity.
  - rewrite <- ?app_assoc; reflexivity.
Qed.

Lemma backup_rejected cfg w :
  version_ok w = false ->
  exists t,
    backup cfg w = (t, Raise UnboundLocalError) /\
    forallb is_backup_step t = true.
Proof.
  unfold version_ok, backup, backup_steps.
  destruct (version_info w) as [[major minor] micro].
  rewrite Z.leb_antisym.
  destruct (major =? 3)%Z; simpl;
    [destruct (minor <? 6)%Z; simpl; [| discriminate] |];
    intros _; eexists; split; reflexivity.
Qed.

Lemma backup_interrupted cfg w e :
  version_ok w = true ->
  result (send_files cfg w (today w)) = Raise e ->
  backup cfg w
  = (EvLog INFO MsgEnvCreated :: trace (send_files cfg w (today w)), Raise e).
Proof.
  unfold version_ok, backup, backup_steps.
  destruct (version_info w) as [[major minor] micro].
  rewrite Z.leb_antisym.
  destruct (major =? 3)%Z; [| discriminate].
  destruct (minor <? 6)%Z; [discriminate |]; intros _.
  generalize (send_files cfg w (today w)); intros [tS rS] H.
  unfold result, trace in *; simpl in H; subst rS.
  unfold rbind, blind, logger, emit, bind; simpl.
  rewrite ?app_nil_r; reflexivity.
Qed.

(** The run of [backup] once the headers are accepted: the history, the
    steps of the session, the error records if it raised, the print, and
    the closing of the logger if the print returned. *)
Lemma backup_with_mail_step cfg w :
  version_ok w = true ->
  result (send_files cfg w (today w)) = Ok tt ->
  result (build_headers cfg w (today w)) = Ok tt ->
  let h := history_at_mail cfg w in
  let session := dispatch cfg w (today w) h in
  exists logs c,
    backup cfg w
    = (h ++ trace session ++ logs ++ EvPrint c
         :: match print_out w c with Ok _ => [EvCloseLogger] | Raise _ => [] end,
       match print_out w c with Ok _ => Ok tt | Raise e => Raise e end) /\
    match result session with
    | Ok _ => logs = [] /\ c = ConsoleLine (confirmation cfg)
    | Raise _ =>
        (exists m, logs = [EvLog ERROR m; EvLog ERROR MsgUnableToSend]) /\
        c = ConsoleReport (getvalue (h ++ logs))
    end.
Proof.
  intros Hv Hs Hh h session; subst h session.
  rewrite (backup_after_backup_phase cfg w Hv Hs); cbv zeta.
  destruct (send_email_accepted cfg w (today w) (history_at_mail cfg w) Hh)
    as (logs & Heq & Hlogs).
  rewrite Heq; clear Heq.
  destruct (dispatch_steps cfg w (today w) (history_at_mail cfg w))
    as (_ & _ & Hg & _).
  destruct (result (dispatch cfg w (today w) (history_at_mail cfg w)))
    as [[] | e].
  - subst logs.
    exists [], (ConsoleLine (confirmation cfg)).
    split; [| split; reflexivity].
    rewrite !app_nil_r.
    destruct (print_out w _) as [[] | e]; rewrite <- ?app_assoc; reflexivity.
  - destruct Hlogs as [m ->].
    eexists [EvLog ERROR m; EvLog ERROR MsgUnableToSend], _.
    split; [| split; [now exists m | reflexivity]].
    rewrite !getvalue_app, Hg; simpl.
    destruct (print_out w _) as [[] | e']; rewrite <- ?app_assoc; reflexivity.
Qed.

Lemma history_at_mail_steps cfg w :
  console (history_at_mail cfg w) = [] /\
  mails (history_at_mail cfg w) = [] /\
  filter is_close (history_at_mail cfg w) = [] /\
  getvalue (history_at_mail cfg w)
  = (INFO, MsgEnvCreated)
      :: getvalue (trace (send_files cfg w (today w)))
      ++ [(INFO, MsgSendingEmail (MAIL_TO cfg))].
Proof.
  destruct (backup_steps_only _ (send_files_steps cfg w (today w)))
    as (Hm & Hc & Hl).
  unfold history_at_mail; cbn [app console mails filter is_close getvalue].
  rewrite console_app, mails_app, filter_app, getvalue_app, Hm, Hc, Hl.
  repeat split.
Qed.

(** ** What reaches the mail and the console (l.186-212, l.227-233) *)



(** ** When [backup] returns (l.214-234) *)

Lemma dispatch_mails_at_most_one cfg w d h :
  length (mails (trace (dispatch cfg w d h))) <= 1.
Proof.
  destruct (dispatch_steps cfg w d h) as (_ & _ & _ & ->).
  destruct (smtp_connect w (MAIL_SERVER cfg) (PORT_NO cfg)),
    (smtp_login w (EMAIL_FROM cfg) (EMAIL_PASSWORD cfg)),
    (set_content w (getvalue h)); simpl; lia.
Qed.

(** X13. [backup] returns exactly when the version check passes,
    [send_files] returns, the three headers of the message are accepted
    and the one [print] returns.  When it returns, it has closed the
    logger once, and its last two steps are the print and the closing
    of the logger; when it does not return, the logger is never closed.
    In every run it prints at most once and hands at most one mail to
    the server. *)
Theorem backup_reports_exactly_when_it_returns :
  forall cfg w,
    let run := backup cfg w in
    (result run = Ok tt <->
     version_ok w = true /\
     result (send_files cfg w (today w)) = Ok tt /\
     result (build_headers cfg w (today w)) = Ok tt /\
     exists c, console (trace run) = [c] /\ print_out w c = Ok tt) /\
    (result run = Ok tt ->
     filter is_close (trace run) = [EvCloseLogger] /\
     exists c, console (trace run) = [c] /\
               firstn 2 (rev (trace run)) = [EvCloseLogger; EvPrint c]) /\
    (result run <> Ok tt -> filter is_close (trace run) = []) /\
    length (mails (trace run)) <= 1 /\
    length (console (trace run)) <= 1.
Proof.
  intros cfg w run; subst run.
  destruct (version_ok w) eqn:Hv.
  2:{ destruct (backup_rejected cfg w Hv) as (t & -> & Ht).
      destruct (backup_steps_only _ Ht) as (Hm & Hc & Hl).
      unfold trace, result; cbn [fst snd]; rewrite Hm, Hc, Hl.
      repeat split; try discriminate; simpl; try lia.
      all: intros H; decompose [and] H; discriminate. }
  destruct (backup_steps_only _ (send_files_steps cfg w (today w)))
    as (HmS & HcS & HlS).
  destruct (result (send_files cfg w (today w))) as [[] | e] eqn:Hs.
  2:{ rewrite (backup_interrupted cfg w e Hv Hs).
      set (tS := trace (send_files cfg w (today w))) in *.
      unfold trace, result; cbn [fst snd mails console filter is_close].
      rewrite HmS, HcS, HlS.
      repeat split; try discriminate; simpl; try lia.
      all: intros H; decompose [and] H; discriminate. }
  destruct (history_at_mail_steps cfg w) as (HcH & HmH & HlH & _).
  destruct (result (build_headers cfg w (today w))) as [[] | e] eqn:Hh.
  2:{ rewrite (backup_after_backup_phase cfg w Hv Hs); cbv zeta.
      rewrite (send_email_rejected cfg w (today w) _ e Hh), app_nil_r.
      unfold trace, result; cbn [fst snd]; rewrite HcH, HmH, HlH.
      repeat split; try discriminate; simpl; try lia.
      all: intros H; decompose [and] H; discriminate. }
  destruct (backup_with_mail_step cfg w Hv Hs Hh) as (logs & c & -> & Hc).
  pose proof (dispatch_mails_at_most_one cfg w (today w) (history_at_mail cfg w))
    as Hone.
  destruct (dispatch_steps cfg w (today w) (history_at_mail cfg w))
    as (HcD & HlD & _ & _).
  set (tD := trace (dispatch cfg w (today w) (history_at_mail cfg w))) in *.
  assert (Hlogs : console logs = [] /\ mails logs = [] /\
                  filter is_close logs = []).
  { destruct (result (dispatch cfg w (today w) (history_at_mail cfg w)));
      [destruct Hc as [-> _] | destruct Hc as [[m ->] _]]; repeat split. }
  destruct Hlogs as (HcL & HmL & HlL).
  clear Hc.
  unfold trace, result; cbn [fst snd].
  rewrite !console_app, !mails_app, !filter_app, HcH, HmH, HlH, HcD, HlD,
    HcL, HmL, HlL.
  cbn [app console mails filter is_close].
  destruct (print_out w c) as [[] | e] eqn:Hp; cbn [app console mails filter is_close].
  - rewrite app_nil_r.
    split; [split; [intros _; repeat split; eauto | reflexivity] |].
    split.
    + intros _; split; [reflexivity |].
      exists c; split; [reflexivity |].
      rewrite !rev_app_distr; reflexivity.
    + split; [intros H; now elim H | split; [exact Hone | simpl; lia]].
  - rewrite app_nil_r.
    split; [split; [discriminate |] |].
    + intros (_ & _ & _ & c' & Hc' & Hp'); injection Hc' as <-; congruence.
    + split; [discriminate |].
      split; [reflexivity | split; [exact Hone | simpl; lia]].
Qed.

(** X14. When the version check passes, [send_files] returns and the
    headers are accepted, [backup] hands a mail to the server only once
    the connection, the login and the setting of the body have
    returned.  That mail is dated with the run date and carries, in
    order, every record of the backup phase followed by the line that
    announces the mail: what is logged after that reaches the console
    only.  When one of the three raises, no mail is handed over. *)
Theorem mail_carries_the_backup_log :
  forall cfg w,
    version_ok w = true ->
    result (send_files cfg w (today w)) = Ok tt ->
    result (build_headers cfg w (today w)) = Ok tt ->
    let body := (INFO, MsgEnvCreated)
                  :: getvalue (trace (send_files cfg w (today w)))
                  ++ [(INFO, MsgSendingEmail (MAIL_TO cfg))] in
    mails (trace (backup cfg w))
    = match smtp_connect w (MAIL_SERVER cfg) (PORT_NO cfg),
            smtp_login w (EMAIL_FROM cfg) (EMAIL_PASSWORD cfg),
            set_content w body with
      | Ok _, Ok _, Ok _ =>
          [EvSmtp (SITE cfg) (today w) (EMAIL_FROM cfg) (MAIL_TO cfg) body]
      | _, _, _ => []
      end.
Proof.
  intros cfg w Hv Hs Hh body; subst body.
  destruct (backup_with_mail_step cfg w Hv Hs Hh) as (logs & c & -> & Hc).
  destruct (history_at_mail_steps cfg w) as (_ & HmH & _ & Hg).
  destruct (dispatch_steps cfg w (today w) (history_at_mail cfg w))
    as (_ & _ & _ & HmD).
  rewrite Hg in HmD.
  set (tD := trace (dispatch cfg w (today w) (history_at_mail cfg w))) in *.
  assert (HmL : mails logs = []).
  { destruct (result (dispatch cfg w (today w) (history_at_mail cfg w)));
      [destruct Hc as [-> _] | destruct Hc as [[m ->] _]]; reflexivity. }
  unfold trace; cbn [fst].
  rewrite !mails_app, HmH, HmD, HmL; cbn [app mails].
  destruct (print_out w c); cbn [mails]; now rewrite app_nil_r.
Qed.

Lemma mail_carries_the_backup_log_witness :
  let cfg := Scene.config Scene.one_table in
  let w := Scene.calm in
  mails (trace (backup cfg w))
  = [EvSmtp "s" Scene.run_day "backup@example.org" "ops@example.org"
            ((INFO, MsgEnvCreated)
               :: getvalue (trace (send_files cfg w Scene.run_day))
               ++ [(INFO, MsgSendingEmail "ops@example.org")])].
Proof.
  exact (mail_carries_the_backup_log
           (Scene.config Scene.one_table) Scene.calm
           eq_refl eq_refl eq_refl).
Defined.

(** ** Entries that give no work (l.110-118) *)

(** X10. A three-field entry with a pattern, whose key is not an
    absolute path or whose glob returns no file, is passed over: the
    round returns the count unchanged and makes no call but the glob;
    after the start line it writes one record, an error for a key that
    is not absolute and a warning for an absolute key without a
    matching file. *)
Theorem entry_without_work_is_passed_over :
  forall cfg w TODAY su path tech_name days delete_option files,
    glob w (dirname (unescape_blanks path)) (basename path) = Ok files ->
    is_empty (basename path) = false ->
    isabs path = false \/ files = [] ->
    let run := process_technology cfg w TODAY su path
                 (PyList [tech_name; days; delete_option]) in
    result run = Ok su /\
    filter is_outward (trace run)
    = [EvGlob (dirname (unescape_blanks path)) (basename path)] /\
    exists m,
      getvalue (trace run)
      = [(INFO, MsgStarting (dirname (unescape_blanks path)) tech_name);
         (if isabs path then WARNING else ERROR, m)].
Proof.
  intros cfg w TODAY su path tn dy dl files Hg Hpat Hskip run; subst run.
  unfold process_technology, call_glob, logger, emit, lift, ret, bind, trace,
    result.
  rewrite Hg, Hpat; simpl.
  destruct (isabs path); simpl.
  - destruct Hskip as [H | ->]; [discriminate |]; simpl; eauto.
  - eauto.
Qed.

Lemma entry_without_work_is_passed_over_witness :
  let run := process_technology (Scene.config Scene.one_table) Scene.calm
               Scene.run_day 0 "data/*.class" Scene.java_delete in
  result run = Ok 0 /\
  filter is_outward (trace run) = [EvGlob "data" "*.class"] /\
  exists m,
    getvalue (trace run)
    = [(INFO, MsgStarting "data" (PyStr "java")); (ERROR, m)].
Proof.
  apply (entry_without_work_is_passed_over
           (Scene.config Scene.one_table) Scene.calm Scene.run_day 0
           "data/*.class" (PyStr "java") (PyInt 90) (PyStr "delete")
           Scene.three_files).
  - reflexivity.
  - reflexivity.
  - left; reflexivity.
Defined.

(** ** A header that is turned down (l.191-194) *)

(** X17. When the version check passes and [send_files] returns but
    the email package turns down one of the three headers, the
    exception leaves [send_email] before the [try] and then [backup]:
    the run ends with it right after the line that announces the mail,
    with no SMTP connection, nothing printed and the logger left
    open. *)
Theorem rejected_header_ends_the_run :
  forall cfg w e,
    version_ok w = true ->
    result (send_files cfg w (today w)) = Ok tt ->
    result (build_headers cfg w (today w)) = Raise e ->
    backup cfg w = (history_at_mail cfg w, Raise e) /\
    filter is_outward (history_at_mail cfg w)
    = filter is_outward (trace (send_files cfg w (today w))) /\
    console (history_at_mail cfg w) = [] /\
    filter is_close (history_at_mail cfg w) = [].
Proof.
  intros cfg w e Hv Hs Hh.
  destruct (history_at_mail_steps cfg w) as (Hc & _ & Hl & _).
  split; [| split; [| split; assumption]].
  - rewrite (backup_after_backup_phase cfg w Hv Hs); cbv zeta.
    now rewrite (send_email_rejected cfg w (today w) _ e Hh), app_nil_r.
  - unfold history_at_mail; cbn [filter is_outward].
    now rewrite filter_app, app_nil_r.
Qed.

Lemma rejected_header_ends_the_run_witness :
  let cfg := Scene.config Scene.one_table in
  let w := Scene.broken_subject in
  backup cfg w = (history_at_mail cfg w, Raise ValueError) /\
  filter is_outward (history_at_mail cfg w)
  = filter is_outward (trace (send_files cfg w (today w))) /\
  console (history_at_mail cfg w) = [] /\
  filter is_close (history_at_mail cfg w) = [].
Proof.
  exact (rejected_header_ends_the_run
           (Scene.config Scene.one_table) Scene.broken_subject ValueError
           eq_refl eq_refl eq_refl).
Defined.
